(** * KolHalashonAPI: a shallow embedding of [src/kolhalashon/api.py]

    The client is a thin binding over one remote HTTP service.  The
    embedding keeps the Python program's shape: decoded JSON values are
    dynamically typed Python objects, every method of [KolHalashonAPI]
    is a computation in a state-and-exception monad over the object and
    the outside world (network, standard output, file system,
    environment), and the two generator functions are resumable state
    machines driven by [next]. *)

From stdpp Require Import gmap strings list pretty.
From Corelib Require Import PrimFloat.

Open Scope Z_scope.
Open Scope string_scope.

(** ** Python values *)

(** What [response.json()] can return: [None], [bool], [int], [float],
    [str], [list] and [dict] with string keys. *)
#[warnings="-register-all"]
Inductive json : Type :=
| JNull
| JBool (b : bool)
| JInt (n : Z)
| JFloat (f : float)
| JStr (s : string)
| JArr (l : list json)
| JObj (m : gmap string json).

(** [bool(v)], as used by [if token:]. *)
Definition py_truthy (v : json) : bool :=
  match v with
  | JNull => false
  | JBool b => b
  | JInt n => negb (n =? 0)%Z
  | JFloat f => negb (PrimFloat.eqb f 0%float)
  | JStr s => negb (String.eqb s "")
  | JArr l => negb (Nat.eqb (length l) 0%nat)
  | JObj m => negb (Nat.eqb (size m) 0%nat)
  end.

Definition is_mapping (v : json) : bool :=
  match v with JObj _ => true | _ => false end.

(** [QualityLevel] of models/shiur.py.
    Modelled from the spec: models/shiur.py is missing; the glossary
    names three variants (audio-only, standard video, high definition). *)
Inductive QualityLevel := AUDIO | VIDEO | HD.

Definition QualityLevel_eqb (a b : QualityLevel) : bool :=
  match a, b with
  | AUDIO, AUDIO | VIDEO, VIDEO | HD, HD => true
  | _, _ => false
  end.

(** ** Exceptions *)

(** The exception classes of models/exceptions.py, with the arguments
    given at the raise sites of api.py, followed by the built-in
    exceptions the interpreter raises on its own.  [MalformedResponseError]
    is an error kind of the specification's taxonomy; api.py has no
    raise site for it. *)
Inductive exn :=
| AuthenticationError (msg : string)
| SessionNotLoadedException
| SessionDisabledException
| SearchFailedException (msg : string) (status : Z)
| DownloadFailedException (msg : string) (status file_id : Z) (quality_level : QualityLevel)
| ShiurDetailsNotFoundException (file_id : Z)
| MalformedResponseError
| AttributeError (attribute : string)
| TypeError (msg : string)
| JSONDecodeError
| RequestException
| OSError.

Inductive result (A : Type) :=
| Ok (a : A)
| Raise (e : exn).
Arguments Ok {A} a.
Arguments Raise {A} e.

Definition is_Ok {A} (r : result A) : bool :=
  match r with Ok _ => true | Raise _ => false end.

(** Exception-only computations (the response mappers are pure). *)
Definition rbind {A B} (r : result A) (k : A → result B) : result B :=
  match r with
  | Ok a => k a
  | Raise e => Raise e
  end.

Notation "'try!' x ':=' c 'in' k" := (rbind c (fun x => k))
  (at level 10, x name, c at level 100, k at level 200).

(** [obj.get(key, default)]: only a [dict] has the attribute [get]. *)
Definition py_get (obj : json) (key : string) (default : json) : result json :=
  match obj with
  | JObj m =>
      match m !! key with
      | Some v => Ok v
      | None => Ok default
      end
  | _ => Raise (AttributeError "get")
  end.

(** [iter(obj)] for the [for] loop of [format_shiurim]: a list gives its
    elements, a dict its keys, a string its characters; nothing else is
    iterable. *)
Fixpoint chars (s : string) : list json :=
  match s with
  | EmptyString => []
  | String c s' => JStr (String c EmptyString) :: chars s'
  end.

Definition py_iter (obj : json) : result (list json) :=
  match obj with
  | JArr l => Ok l
  | JObj m => Ok (JStr <$> (map_to_list m).*1)
  | JStr s => Ok (chars s)
  | _ => Raise (TypeError "object is not iterable")
  end.

(** ** The two record shapes *)

(** [Shiur] and [ShiurDetails] of models/shiur.py.
    Modelled from the spec: models/shiur.py is missing; section 3 lists
    the fields, and the keyword arguments of the two constructor calls
    in api.py name them.  The fields hold whatever Python value the
    mapper passes. *)
Record Shiur := {
  s_file_id : json;
  s_title : json;
  s_rav : json;
  s_duration : json;
  s_record_date : json;
  s_main_topic : json;
  s_category_1 : json;
  s_category_2 : json;
  s_audio_available : json;
  s_video_available : json;
  s_hd_video_available : json;
  s_download_count : json;
  s_women_only : json;
  s_shiur_type : json;
  s_viewed_by_user : json
}.

Record ShiurDetails := {
  d_file_id : json;
  d_title : json;
  d_rav : json;
  d_duration : json;
  d_record_date : json;
  d_main_topic : json;
  d_audio_available : json;
  d_video_available : json;
  d_hd_video_available : json;
  d_categories : list json
}.

(** ** Response mappers *)

(** The body of the loop of [format_shiurim]: the [Shiur(...)] call,
    keyword arguments evaluated left to right. *)
Definition format_shiur (shiur : json) : result Shiur :=
  try! file_id := py_get shiur "FileId" (JInt 0) in
  try! title := py_get shiur "TitleHebrew" (JStr "") in
  try! rav := py_get shiur "UserNameHebrew" (JStr "") in
  try! duration := py_get shiur "ShiurDuration" (JStr "Unavailable") in
  try! record_date := py_get shiur "RecordDate" (JStr "") in
  try! main_topic := py_get shiur "MainTopicHebrew" (JStr "") in
  try! category_1 := py_get shiur "CatDesc1" (JStr "") in
  try! category_2 := py_get shiur "CatDesc2" (JStr "") in
  try! audio_available := py_get shiur "HasAudio" (JBool false) in
  try! video_available := py_get shiur "HasVideo" (JBool false) in
  try! hd_video_available := py_get shiur "HasHdVideo" (JBool false) in
  try! download_count := py_get shiur "DownloadCount" (JInt 0) in
  try! women_only := py_get shiur "IsWomenOnly" (JBool false) in
  try! shiur_type := py_get shiur "ShiurType" (JStr "Unavailable") in
  try! viewed_by_user := py_get shiur "ViewdByUser" (JBool false) in
  Ok {| s_file_id := file_id;
        s_title := title;
        s_rav := rav;
        s_duration := duration;
        s_record_date := record_date;
        s_main_topic := main_topic;
        s_category_1 := category_1;
        s_category_2 := category_2;
        s_audio_available := audio_available;
        s_video_available := video_available;
        s_hd_video_available := hd_video_available;
        s_download_count := download_count;
        s_women_only := women_only;
        s_shiur_type := shiur_type;
        s_viewed_by_user := viewed_by_user |}.

Definition _parse_shiur_details (data : json) : result ShiurDetails :=
  try! file_id := py_get data "FileId" (JInt 0) in
  try! title := py_get data "TitleHebrew" (JStr "") in
  try! rav := py_get data "UserNameHebrew" (JStr "") in
  try! duration := py_get data "ShiurDuration" (JStr "Unavailable") in
  try! record_date := py_get data "RecordDate" (JStr "") in
  try! main_topic := py_get data "MainTopicHebrew" (JStr "") in
  try! audio_available := py_get data "HasAudio" (JBool false) in
  try! video_available := py_get data "HasVideo" (JBool false) in
  try! hd_video_available := py_get data "HasHdVideo" (JBool false) in
  try! cat1 := py_get data "CatDesc1" (JStr "") in
  try! cat2 := py_get data "CatDesc2" (JStr "") in
  Ok {| d_file_id := file_id;
        d_title := title;
        d_rav := rav;
        d_duration := duration;
        d_record_date := record_date;
        d_main_topic := main_topic;
        d_audio_available := audio_available;
        d_video_available := video_available;
        d_hd_video_available := hd_video_available;
        d_categories := [cat1; cat2] |}.

(** ** Generators *)

(** What one [next(g)] gives: a yielded value, [StopIteration], or an
    exception raised by the generator's body. *)
Inductive step (A : Type) :=
| Yield (a : A)
| StopIteration
| Throw (e : exn).
Arguments Yield {A} a.
Arguments StopIteration {A}.
Arguments Throw {A} e.

(** A [format_shiurim] generator object: created and not yet started,
    suspended at the [yield] inside the loop with the entries still to
    visit, or finished. *)
Inductive format_shiurim_gen :=
| FsCreated (shiurim : json)
| FsSuspended (rest : list json)
| FsFinished.

(** Calling the generator function runs none of its body. *)
Definition format_shiurim (shiurim : json) : format_shiurim_gen :=
  FsCreated shiurim.

Definition format_shiurim_loop (entries : list json)
  : step Shiur * format_shiurim_gen :=
  match entries with
  | [] => (StopIteration, FsFinished)
  | shiur :: rest =>
      match format_shiur shiur with
      | Ok item => (Yield item, FsSuspended rest)
      | Raise e => (Throw e, FsFinished)
      end
  end.

Definition format_shiurim_next (g : format_shiurim_gen)
  : step Shiur * format_shiurim_gen :=
  match g with
  | FsCreated shiurim =>
      match py_iter shiurim with
      | Ok entries => format_shiurim_loop entries
      | Raise e => (Throw e, FsFinished)
      end
  | FsSuspended rest => format_shiurim_loop rest
  | FsFinished => (StopIteration, FsFinished)
  end.

(** [list(g)]: call [next] until [StopIteration]; [None] when the fuel
    runs out first. *)
Fixpoint format_shiurim_list (fuel : nat) (g : format_shiurim_gen)
  : option (result (list Shiur)) :=
  match fuel with
  | O => None
  | S fuel' =>
      match format_shiurim_next g with
      | (Yield item, g') =>
          match format_shiurim_list fuel' g' with
          | Some (Ok items) => Some (Ok (item :: items))
          | other => other
          end
      | (StopIteration, _) => Some (Ok [])
      | (Throw e, _) => Some (Raise e)
      end
  end.

(** ** The outside world *)

Inductive http_method := GET | POST.

(** One call of [session.get] or [session.post]: the URL and the
    keyword arguments [headers], [json] and [stream] as api.py passes
    them. *)
Record Request := {
  req_method : http_method;
  req_url : string;
  req_headers : gmap string string;
  req_json : option json;
  req_stream : bool
}.

(** What api.py reads from a response: [status_code], [text], [json()]
    ([None] when the body does not decode) and the chunks that
    [iter_content] hands out.  The body of a streamed response arrives
    while it is read: [stream_breaks] says that the connection fails
    after the chunks listed, so that [iter_content] raises once they
    are consumed. *)
Record Response := {
  status_code : Z;
  text : string;
  body_json : option json;
  body_chunks : list (list Byte.byte);
  stream_breaks : bool
}.

(** [SessionData] of models/session.py.  The two tokens are Python
    values: [None] is [JNull], a [str] is [JStr]. *)
Record SessionData := {
  cookies : gmap string string;
  auth_token : json;
  site_key : json;
  headers : gmap string string
}.

(** The world outside the object.  [remote] is the service behind the
    HTTP client: given the calls made so far and the new call it
    answers, or the transport fails ([None]).  Persisted sessions are
    kept in decoded form, [Some None] being a file that does not parse.
    The file system can refuse: [unwritable path] says that
    [open(path, 'wb')] raises, and [write_fails path content] that the
    write which would bring the file at [path] to [content] raises. *)
Record World := {
  remote : list Request → Request → option Response;
  requests : list Request;
  stdout : list string;
  files : gmap string (list Byte.byte);
  unwritable : string → bool;
  write_fails : string → list Byte.byte → bool;
  environ : gmap string string;
  session_files : gmap string (option SessionData)
}.

(** ** The object *)

(** [SessionManager] of utils/session_manager.py.
    Modelled from the spec: utils/session_manager.py is missing;
    section 3 gives the session state (cookies, token, site key, derived
    headers) and section 4.1 the contracts of load, isTokenValid and
    setTokens. *)
Record SessionManager := {
  session_file : string;
  session_data : SessionData
}.

Record KolHalashonAPI := {
  username : string;
  password : string;
  use_session : bool;
  session_manager : SessionManager
}.

(** [self._base_url] and [self._headers] are assigned once in
    [__init__] and never written again. *)
Definition _base_url : string := "https://www2.kolhalashon.com:444/api/".

Definition _headers : gmap string string :=
  {[ "origin" := "https://www2.kolhalashon.com";
     "referer" := "https://www2.kolhalashon.com/" ]}.

(** ** The monad of methods *)

Record St := { self : KolHalashonAPI; world : World }.

(** A method runs on the object and the world, changes both, and
    returns or raises; what it changed before raising stays changed. *)
Definition M (A : Type) : Type := St → result A * St.

Definition ret {A} (a : A) : M A := λ st, (Ok a, st).

Definition raise {A} (e : exn) : M A := λ st, (Raise e, st).

Definition bind {A B} (c : M A) (k : A → M B) : M B := λ st,
  match c st with
  | (Ok a, st') => k a st'
  | (Raise e, st') => (Raise e, st')
  end.

Notation "'let*' x ':=' c 'in' k" := (bind c (fun x => k))
  (at level 10, x name, c at level 100, k at level 200).
Notation "'do!' c 'in' k" := (bind c (fun _ => k))
  (at level 10, c at level 100, k at level 200).

(** [try: body / except ...: handler]; [handler e] is [None] for an
    exception no [except] clause matches. *)
Definition try_except {A} (body : M A) (handler : exn → option (M A)) : M A := λ st,
  match body st with
  | (Ok a, st') => (Ok a, st')
  | (Raise e, st') =>
      match handler e with
      | Some h => h st'
      | None => (Raise e, st')
      end
  end.

Definition gets {A} (f : St → A) : M A := λ st, (Ok (f st), st).

Definition set_world (f : World → World) : M unit := λ st,
  (Ok tt, {| self := self st; world := f (world st) |}).

Fixpoint for_each {A} (l : list A) (body : A → M unit) : M unit :=
  match l with
  | [] => ret tt
  | x :: rest => do! body x in for_each rest body
  end.

(** *** Effects on the world *)

Definition log_request (r : Request) (w : World) : World :=
  {| remote := remote w;
     requests := (requests w ++ [r])%list;
     stdout := stdout w;
     files := files w;
     unwritable := unwritable w;
     write_fails := write_fails w;
     environ := environ w;
     session_files := session_files w |}.

Definition write_stdout (line : string) (w : World) : World :=
  {| remote := remote w;
     requests := requests w;
     stdout := (stdout w ++ [line])%list;
     files := files w;
     unwritable := unwritable w;
     write_fails := write_fails w;
     environ := environ w;
     session_files := session_files w |}.

Definition update_files (f : gmap string (list Byte.byte) → gmap string (list Byte.byte))
    (w : World) : World :=
  {| remote := remote w;
     requests := requests w;
     stdout := stdout w;
     files := f (files w);
     unwritable := unwritable w;
     write_fails := write_fails w;
     environ := environ w;
     session_files := session_files w |}.

Definition print (line : string) : M unit := set_world (write_stdout line).

(** [self.session_manager.session.get/post]: the call is recorded, and
    the service answers from the calls made before it. *)
Definition session_request (r : Request) : M Response := λ st,
  let w := world st in
  let st' := {| self := self st; world := log_request r w |} in
  match remote w (requests w) r with
  | Some response => (Ok response, st')
  | None => (Raise RequestException, st')
  end.

Definition session_get (url : string) (hdrs : gmap string string) (stream : bool)
  : M Response :=
  session_request {| req_method := GET; req_url := url; req_headers := hdrs;
                     req_json := None; req_stream := stream |}.

Definition session_post (url : string) (hdrs : gmap string string) (payload : json)
  : M Response :=
  session_request {| req_method := POST; req_url := url; req_headers := hdrs;
                     req_json := Some payload; req_stream := false |}.

Definition response_json (response : Response) : M json :=
  match body_json response with
  | Some j => ret j
  | None => raise JSONDecodeError
  end.

(** Lift a pure, possibly raising, evaluation into a method body. *)
Definition lift {A} (r : result A) : M A := λ st, (r, st).

(** [open(name, 'wb')] truncates, [file.write(chunk)] appends; either
    raises [OSError] when the file system refuses, and then changes
    nothing. *)
Definition file_open_wb (name : string) : M unit := λ st,
  if unwritable (world st) name then (Raise OSError, st)
  else set_world (update_files (λ fs, <[name := []]> fs)) st.

Definition file_write (name : string) (chunk : list Byte.byte) : M unit := λ st,
  let content := (default [] (files (world st) !! name) ++ chunk)%list in
  if write_fails (world st) name content then (Raise OSError, st)
  else set_world (update_files (λ fs, <[name := content]> fs)) st.

(** The [with open(file_name, 'wb') as file] block of [download_file]:
    the file is opened, every chunk that [iter_content] hands out is
    written, and when the stream breaks [iter_content] raises after its
    last chunk.  An exception leaves the block with the file as far as
    it was written. *)
Definition save_stream (file_name : string) (response : Response) : M unit :=
  do! file_open_wb file_name in
  do! for_each (body_chunks response) (file_write file_name) in
  if stream_breaks response then raise RequestException else ret tt.

Definition getenv (w : World) (name fallback : string) : string :=
  default fallback (environ w !! name).

(** ["1" * 90] *)
Fixpoint str_mul (s : string) (n : nat) : string :=
  match n with
  | O => ""
  | S n' => s +:+ str_mul s n'
  end.

(** *** The session store *)

(** [SessionManager] lives in utils/session_manager.py and
    [QualityLevel.value] in models/shiur.py; api.py only calls them.
    They are taken as parameters, typed by what section 4.1 of the
    specification says of them: the constructor builds a store for a
    session file; [load_session()] restores the state from what is
    persisted or raises; [is_token_valid()] is a check of the stored
    token that asks nothing of the remote service; [set_tokens(token,
    site_key)] updates the store; [get_download_key(file_id)] obtains a
    key, by whatever means.  api.py is verified against every
    implementation of them. *)
Class Collaborators := {
  SessionManager_new : string → SessionManager;
  load_session : World → SessionManager → result SessionManager;
  is_token_valid : SessionManager → bool;
  set_tokens : json → json → SessionManager → SessionManager;
  get_download_key : Z → M string;
  quality_level_value : QualityLevel → string
}.

Definition with_session_manager (sm : SessionManager) (st : St) : St :=
  {| self := {| username := username (self st);
                password := password (self st);
                use_session := use_session (self st);
                session_manager := sm |};
     world := world st |}.

(** A call of a method of [self.session_manager] that updates it. *)
Definition update_session_manager (f : SessionManager → SessionManager) : M unit :=
  λ st, (Ok tt, with_session_manager (f (session_manager (self st))) st).

(** The same for a method that may raise, leaving the store as it was. *)
Definition try_update_session_manager
    (f : World → SessionManager → result SessionManager) : M unit := λ st,
  match f (world st) (session_manager (self st)) with
  | Ok sm => (Ok tt, with_session_manager sm st)
  | Raise e => (Raise e, st)
  end.

Definition stored_token (st : St) : json :=
  auth_token (session_data (session_manager (self st))).

Definition stored_headers (st : St) : gmap string string :=
  headers (session_data (session_manager (self st))).

(** [self.session_manager.headers] *)
Definition session_manager_headers : M (gmap string string) := gets stored_headers.

Section Api.
Context `{Collaborators}.

(** ** The methods of [KolHalashonAPI] *)

Definition __login (username password : string) : M bool :=
  if String.eqb username "" || String.eqb password "" then
    raise (AuthenticationError "Username and password are required")
  else
    let login_url := _base_url +:+ "Accounts/UserLogin/" in
    let payload := JObj {[ "Username" := JStr username; "Password" := JStr password ]} in
    let* response := session_post login_url _headers payload in
    if (status_code response =? 200)%Z then
      let* data := response_json response in
      let* token := lift (py_get data "Token" JNull) in
      if py_truthy token then
        let* key := lift (py_get data "SiteKey" (JStr "")) in
        do! update_session_manager (set_tokens token key) in
        ret true
      else
        raise (AuthenticationError "Login successful but no token found")
    else
      raise (AuthenticationError
               ("Login failed with status code " +:+ pretty (status_code response))).

(** The [except SessionNotLoadedException] block of [_init_session]. *)
Definition login_fallback : M unit :=
  do! print "Session not found or invalid, attempting to login." in
  let* user := gets (λ st, username (self st)) in
  let* pass := gets (λ st, password (self st)) in
  do! __login user pass in
  ret tt.

Definition _init_session : M unit :=
  try_except
    (do! try_update_session_manager load_session in
     let* valid := gets (λ st, is_token_valid (session_manager (self st))) in
     if negb valid then raise SessionNotLoadedException else ret tt)
    (λ e, match e with
          | SessionNotLoadedException => Some login_fallback
          | _ => None
          end).

(** The object as [__init__] has set it up when it reaches
    [if self.use_session]. *)
Definition constructed (username password : option string) (use_session : bool)
    (session_file : string) (w : World) : St :=
  let from_env (arg : option string) (name : string) :=
    match arg with
    | Some s => if String.eqb s "" then getenv w name "" else s
    | None => getenv w name ""
    end in
  {| self := {| username := from_env username "KOL_HALASHON_USERNAME";
                password := from_env password "KOL_HALASHON_PASSWORD";
                use_session := use_session;
                session_manager := SessionManager_new session_file |};
     world := w |}.

(** [KolHalashonAPI(username, password, use_session, session_file)] *)
Definition __init__ (username password : option string) (use_session : bool)
    (session_file : string) (w : World) : result unit * St :=
  let st := constructed username password use_session session_file w in
  if use_session then _init_session st else (Ok tt, st).

Definition search_items (keyword : string) (user_id : Z) : M json :=
  let url := _base_url +:+ "Search/WebSite_GetSearchItems/" +:+ keyword +:+ "/"
             +:+ pretty user_id +:+ "/1/4" in
  let* response := session_get url _headers false in
  if (status_code response =? 200)%Z then
    response_json response
  else
    do! print ("Request failed with status code " +:+ pretty (status_code response)
               +:+ " and response: " +:+ text response) in
    raise (SearchFailedException ("Error fetching data for keyword: " +:+ keyword)
                                 (status_code response)).

(** *** [search_rav_shiurim], a generator function *)

Inductive search_rav_shiurim_gen :=
| RavCreated (rav_id : Z)
| RavDelegating (inner : format_shiurim_gen)
| RavFinished.

(** The call only builds the generator object. *)
Definition search_rav_shiurim (rav_id : Z) : M search_rav_shiurim_gen :=
  ret (RavCreated rav_id).

(** The body up to [yield from]: one POST, then either the inner
    generator over the decoded body or [SearchFailedException]. *)
Definition search_rav_shiurim_body (rav_id : Z) : M format_shiurim_gen :=
  let url := _base_url +:+ "Search/WebSite_GetRavShiurim/" in
  let data := JObj {[ "QueryType" := JInt (-1);
                      "LangID" := JInt (-1);
                      "MasechetID" := JInt (-1);
                      "DafNo" := JInt (-1);
                      "FromRow" := JInt 0;
                      "NumOfRows" := JInt 24;
                      "GeneralID" := JInt rav_id;
                      "FilterSwitch" := JStr (str_mul "1" 90) ]} in
  let* hdrs := session_manager_headers in
  let* response := session_post url hdrs data in
  if (status_code response =? 200)%Z then
    let* shiurim := response_json response in
    ret (format_shiurim shiurim)
  else
    raise (SearchFailedException
             ("Error fetching Rav Shiurim for Rav ID: " +:+ pretty rav_id)
             (status_code response)).

(** [yield from inner]: hand out what the inner generator yields; when
    it stops the body ends too. *)
Definition delegate (inner : format_shiurim_gen)
  : step Shiur * search_rav_shiurim_gen :=
  match format_shiurim_next inner with
  | (Yield item, inner') => (Yield item, RavDelegating inner')
  | (StopIteration, _) => (StopIteration, RavFinished)
  | (Throw e, _) => (Throw e, RavFinished)
  end.

Definition search_rav_shiurim_next (g : search_rav_shiurim_gen) (st : St)
  : (step Shiur * search_rav_shiurim_gen) * St :=
  match g with
  | RavCreated rav_id =>
      match search_rav_shiurim_body rav_id st with
      | (Ok inner, st') => (delegate inner, st')
      | (Raise e, st') => ((Throw e, RavFinished), st')
      end
  | RavDelegating inner => (delegate inner, st)
  | RavFinished => ((StopIteration, RavFinished), st)
  end.

(** [list(g)] on a [search_rav_shiurim] generator. *)
Fixpoint search_rav_shiurim_list (fuel : nat) (g : search_rav_shiurim_gen) (st : St)
  : option (result (list Shiur) * St) :=
  match fuel with
  | O => None
  | S fuel' =>
      match search_rav_shiurim_next g st with
      | ((Yield item, g'), st') =>
          match search_rav_shiurim_list fuel' g' st' with
          | Some (Ok items, st'') => Some (Ok (item :: items), st'')
          | other => other
          end
      | ((StopIteration, _), st') => Some (Ok [], st')
      | ((Throw e, _), st') => Some (Raise e, st')
      end
  end.

Definition download_file (file_id : Z) (quality_level : QualityLevel) : M string :=
  let* session_backed := gets (λ st, use_session (self st)) in
  if negb session_backed then
    raise SessionDisabledException
  else
    let* download_key := get_download_key file_id in
    let url := _base_url +:+ "files/GetFileDownload/" +:+ pretty file_id +:+ "/"
               +:+ quality_level_value quality_level +:+ "/" +:+ download_key
               +:+ "/null/false/false" in
    do! print url in
    let file_extension :=
      if QualityLevel_eqb quality_level AUDIO then "mp3" else "mp4" in
    let quality_name :=
      if QualityLevel_eqb quality_level AUDIO then "audio"
      else if QualityLevel_eqb quality_level VIDEO then "video"
      else "hd" in
    let file_name := "shiur_" +:+ pretty file_id +:+ "_" +:+ quality_name
                     +:+ "." +:+ file_extension in
    let* hdrs := session_manager_headers in
    let* response := session_get url hdrs true in
    if (status_code response =? 200)%Z then
      do! save_stream file_name response in
      ret file_name
    else
      raise (DownloadFailedException "Download failed" (status_code response)
                                     file_id quality_level).

Definition get_shiur_details (file_id : Z) : M ShiurDetails :=
  let url := _base_url +:+ "TblShiurimLists/WebSite_GetShiurDetails/"
             +:+ pretty file_id in
  let* hdrs := session_manager_headers in
  let* response := session_get url hdrs false in
  if (status_code response =? 200)%Z then
    let* data := response_json response in
    lift (_parse_shiur_details data)
  else
    raise (ShiurDetailsNotFoundException file_id).

End Api.

(** ** A session store following the specification *)

Module SessionManagerModel.

(** Modelled from the spec: utils/session_manager.py is missing.
    Section 3 says the session state is created empty, section 4.1 that
    [load] restores the persisted state or fails with
    [SessionNotLoadedError], that [isTokenValid] is true only for a
    token that is present and not empty, and that [setTokens] sets both
    fields together and recomputes the derived headers, which include an
    authorization header built from the token.  The text of that header,
    the download key and the values of the quality levels are not given
    there; the ones below are examples. *)
Definition authorization (token : json) : string :=
  match token with
  | JStr s => "Bearer " +:+ s
  | _ => "Bearer"
  end.

Definition SessionManager_new (path : string) : SessionManager :=
  {| session_file := path;
     session_data := {| cookies := ∅;
                        auth_token := JNull;
                        site_key := JNull;
                        headers := ∅ |} |}.

Definition load_session (w : World) (sm : SessionManager) : result SessionManager :=
  match session_files w !! session_file sm with
  | Some (Some saved) => Ok {| session_file := session_file sm; session_data := saved |}
  | _ => Raise SessionNotLoadedException
  end.

Definition is_token_valid (sm : SessionManager) : bool :=
  py_truthy (auth_token (session_data sm)).

Definition set_tokens (token key : json) (sm : SessionManager) : SessionManager :=
  {| session_file := session_file sm;
     session_data :=
       {| cookies := cookies (session_data sm);
          auth_token := token;
          site_key := key;
          headers := <["authorization" := authorization token]>
                       (headers (session_data sm)) |} |}.

Definition get_download_key (file_id : Z) : M string :=
  ret ("key-" +:+ pretty file_id).

Definition quality_level_value (q : QualityLevel) : string :=
  match q with
  | AUDIO => "1"
  | VIDEO => "2"
  | HD => "3"
  end.

Definition store : Collaborators :=
  Build_Collaborators SessionManager_new load_session is_token_valid set_tokens
                      get_download_key quality_level_value.

End SessionManagerModel.

(** ** Concrete worlds for the examples *)

Module Sample.

Definition answer (status : Z) (body : option json) : Response :=
  {| status_code := status; text := ""; body_json := body; body_chunks := [];
     stream_breaks := false |}.

(** A service that gives the same answer to every call. *)
Definition planet (reply : option Response) : World :=
  {| remote := λ _ _, reply;
     requests := [];
     stdout := [];
     files := ∅;
     unwritable := λ _, false;
     write_fails := λ _ _, false;
     environ := ∅;
     session_files := ∅ |}.

Definition client (session_backed : bool) : KolHalashonAPI :=
  {| username := "user";
     password := "secret";
     use_session := session_backed;
     session_manager := SessionManagerModel.SessionManager_new "session.pkl" |}.

Definition state (session_backed : bool) (reply : option Response) : St :=
  {| self := client session_backed; world := planet reply |}.

Definition token_reply : Response :=
  answer 200 (Some (JObj {[ "Token" := JStr "abc"; "SiteKey" := JStr "site" ]})).

Definition empty_token_reply : Response :=
  answer 200 (Some (JObj {[ "Token" := JStr ""; "SiteKey" := JStr "site" ]})).

Definition listing_reply : Response :=
  answer 200 (Some (JArr [JObj {[ "FileId" := JInt 42; "TitleHebrew" := JStr "שלום" ]}])).

Definition not_found_reply : Response := answer 404 None.

Definition number_token_reply : Response :=
  answer 200 (Some (JObj {[ "Token" := JInt 5; "SiteKey" := JStr "site" ]})).

Definition details_reply : Response :=
  answer 200 (Some (JObj {[ "FileId" := JInt 99; "TitleHebrew" := JStr "שלום" ]})).

Definition media_reply : Response :=
  {| status_code := 200;
     text := "";
     body_json := None;
     body_chunks := [[Byte.x49; Byte.x44]; [Byte.x33]];
     stream_breaks := false |}.


Definition failure_reply : Response :=
  {| status_code := 503; text := "busy"; body_json := None; body_chunks := [];
     stream_breaks := false |}.

(** A world in which both credential variables are set. *)
Definition planet_with_credentials (reply : option Response) : World :=
  {| remote := λ _ _, reply;
     requests := [];
     stdout := [];
     files := ∅;
     unwritable := λ _, false;
     write_fails := λ _ _, false;
     environ := {[ "KOL_HALASHON_USERNAME" := "envuser";
                   "KOL_HALASHON_PASSWORD" := "envsecret" ]};
     session_files := ∅ |}.

(** A stand-in for Python's [str] on decoded values. *)
Definition show (v : json) : string :=
  match v with
  | JStr s => s
  | JArr [] => "[]"
  | _ => "..."
  end.

(** A session-backed object whose store holds an empty token, as after
    loading a session that was persisted without one. *)
Definition stale (reply : option Response) : St :=
  {| self := {| username := "user";
                password := "secret";
                use_session := true;
                session_manager :=
                  {| session_file := "session.pkl";
                     session_data := {| cookies := ∅;
                                        auth_token := JStr "";
                                        site_key := JStr "";
                                        headers := ∅ |} |} |};
     world := {| remote := λ _ _, reply;
                 requests := [];
                 stdout := [];
                 files := ∅;
                 unwritable := λ _, false;
                 write_fails := λ _ _, false;
                 environ := ∅;
                 session_files := ∅ |} |}.

(** A session-backed object whose store has been given a token. *)
Definition authenticated (reply : option Response) : St :=
  with_session_manager
    (SessionManagerModel.set_tokens (JStr "abc") (JStr "site")
       (SessionManagerModel.SessionManager_new "session.pkl"))
    (state true reply).

End Sample.

(** ** Vocabulary of the properties *)

(** A field holds the raw value under its key when the key is present,
    and its default otherwise. *)
Definition populated (m : gmap string json) (key : string) (dflt field : json) : Prop :=
  (∀ v, m !! key = Some v → field = v) ∧ (m !! key = None → field = dflt).

(** The mapping table of a search result item. *)
Definition search_item_of (m : gmap string json) (item : Shiur) : Prop :=
  populated m "FileId" (JInt 0) (s_file_id item)
  ∧ populated m "TitleHebrew" (JStr "") (s_title item)
  ∧ populated m "UserNameHebrew" (JStr "") (s_rav item)
  ∧ populated m "ShiurDuration" (JStr "Unavailable") (s_duration item)
  ∧ populated m "RecordDate" (JStr "") (s_record_date item)
  ∧ populated m "MainTopicHebrew" (JStr "") (s_main_topic item)
  ∧ populated m "CatDesc1" (JStr "") (s_category_1 item)
  ∧ populated m "CatDesc2" (JStr "") (s_category_2 item)
  ∧ populated m "HasAudio" (JBool false) (s_audio_available item)
  ∧ populated m "HasVideo" (JBool false) (s_video_available item)
  ∧ populated m "HasHdVideo" (JBool false) (s_hd_video_available item)
  ∧ populated m "DownloadCount" (JInt 0) (s_download_count item)
  ∧ populated m "IsWomenOnly" (JBool false) (s_women_only item)
  ∧ populated m "ShiurType" (JStr "Unavailable") (s_shiur_type item)
  ∧ populated m "ViewdByUser" (JBool false) (s_viewed_by_user item).

(** The state once a call has been recorded or a line printed, and the
    answer of the service to a call made in a given state. *)
Definition sent (r : Request) (st : St) : St :=
  {| self := self st; world := log_request r (world st) |}.

Definition printed (line : string) (st : St) : St :=
  {| self := self st; world := write_stdout line (world st) |}.

Definition answer_to (r : Request) (st : St) : option Response :=
  remote (world st) (requests (world st)) r.

(** The calls of section 6's endpoint table. *)
Definition login_call (user pass : string) : Request :=
  {| req_method := POST;
     req_url := "https://www2.kolhalashon.com:444/api/Accounts/UserLogin/";
     req_headers := _headers;
     req_json := Some (JObj {[ "Username" := JStr user; "Password" := JStr pass ]});
     req_stream := false |}.

Definition search_items_call (keyword : string) (user_id : Z) : Request :=
  {| req_method := GET;
     req_url := "https://www2.kolhalashon.com:444/api/Search/WebSite_GetSearchItems/"
                +:+ keyword +:+ "/" +:+ pretty user_id +:+ "/1/4";
     req_headers := _headers;
     req_json := None;
     req_stream := false |}.

Definition rav_shiurim_call (rav_id : Z) (hdrs : gmap string string) : Request :=
  {| req_method := POST;
     req_url := "https://www2.kolhalashon.com:444/api/Search/WebSite_GetRavShiurim/";
     req_headers := hdrs;
     req_json := Some (JObj {[ "QueryType" := JInt (-1);
                               "LangID" := JInt (-1);
                               "MasechetID" := JInt (-1);
                               "DafNo" := JInt (-1);
                               "FromRow" := JInt 0;
                               "NumOfRows" := JInt 24;
                               "GeneralID" := JInt rav_id;
                               "FilterSwitch" := JStr (str_mul "1" 90) ]});
     req_stream := false |}.

Definition shiur_details_call (file_id : Z) (hdrs : gmap string string) : Request :=
  {| req_method := GET;
     req_url := "https://www2.kolhalashon.com:444/api/TblShiurimLists/WebSite_GetShiurDetails/"
                +:+ pretty file_id;
     req_headers := hdrs;
     req_json := None;
     req_stream := false |}.

Definition download_url `{Collaborators} (file_id : Z) (q : QualityLevel) (key : string)
  : string :=
  "https://www2.kolhalashon.com:444/api/files/GetFileDownload/" +:+ pretty file_id
  +:+ "/" +:+ quality_level_value q +:+ "/" +:+ key +:+ "/null/false/false".

Definition download_call `{Collaborators} (file_id : Z) (q : QualityLevel) (key : string)
    (hdrs : gmap string string) : Request :=
  {| req_method := GET;
     req_url := download_url file_id q key;
     req_headers := hdrs;
     req_json := None;
     req_stream := true |}.

(** The file name of a download: [shiur_{fileId}_{qualityName}.{ext}]. *)
Definition download_name (file_id : Z) (q : QualityLevel) : string :=
  match q with
  | AUDIO => "shiur_" +:+ pretty file_id +:+ "_audio.mp3"
  | VIDEO => "shiur_" +:+ pretty file_id +:+ "_video.mp4"
  | HD => "shiur_" +:+ pretty file_id +:+ "_hd.mp4"
  end.

(** The initialization policy: login is due when loading fails with
    [SessionNotLoadedException] or the loaded token is not valid. *)
Definition login_due `{Collaborators} (w : World) (sm : SessionManager) : bool :=
  match load_session w sm with
  | Ok loaded => negb (is_token_valid loaded)
  | Raise SessionNotLoadedException => true
  | Raise _ => false
  end.

(** The keys the two mappers read. *)
Definition search_item_keys : list string :=
  ["FileId"; "TitleHebrew"; "UserNameHebrew"; "ShiurDuration"; "RecordDate";
   "MainTopicHebrew"; "CatDesc1"; "CatDesc2"; "HasAudio"; "HasVideo";
   "HasHdVideo"; "DownloadCount"; "IsWomenOnly"; "ShiurType"; "ViewdByUser"].

Definition shiur_details_keys : list string :=
  ["FileId"; "TitleHebrew"; "UserNameHebrew"; "ShiurDuration"; "RecordDate";
   "MainTopicHebrew"; "HasAudio"; "HasVideo"; "HasHdVideo"; "CatDesc1"; "CatDesc2"].

(** [n] calls of [next] on a [format_shiurim] generator, with what each
    gave. *)
Fixpoint format_shiurim_take (n : nat) (g : format_shiurim_gen)
  : list (step Shiur) * format_shiurim_gen :=
  match n with
  | O => ([], g)
  | S n' =>
      let '(outcome, g') := format_shiurim_next g in
      let '(outcomes, g'') := format_shiurim_take n' g' in
      (outcome :: outcomes, g'')
  end.

(** [n] calls of [next] on a [search_rav_shiurim] generator, whatever
    they give. *)
Fixpoint search_rav_shiurim_drive (n : nat) (g : search_rav_shiurim_gen) (st : St)
  : search_rav_shiurim_gen * St :=
  match n with
  | O => (g, st)
  | S n' =>
      let '((_, g'), st') := search_rav_shiurim_next g st in
      search_rav_shiurim_drive n' g' st'
  end.

Fixpoint has_underscore (s : string) : bool :=
  match s with
  | EmptyString => false
  | String c s' => String.eqb (String c EmptyString) "_" || has_underscore s'
  end.

(** ** The example script *)

(** [main] of exemples.py, and the script as a whole: the module-level
    [KolHalashonAPI(use_session=False)] followed by [main()].  [py_str]
    is Python's [str], which [print] applies to the raw results. *)
Definition main (py_str : json → string) : M unit :=
  let search_keyword := "כהן" in
  let* search_results := search_items search_keyword (-1) in
  print (py_str search_results).

Definition exemples `{Collaborators} (py_str : json → string) (w : World)
  : result unit * St :=
  match __init__ None None false "session.pkl" w with
  | (Ok _, st) => main py_str st
  | (Raise e, st) => (Raise e, st)
  end.

(** The mapping table of the details of a shiur. *)
Definition shiur_details_of (m : gmap string json) (details : ShiurDetails) : Prop :=
  populated m "FileId" (JInt 0) (d_file_id details)
  ∧ populated m "TitleHebrew" (JStr "") (d_title details)
  ∧ populated m "UserNameHebrew" (JStr "") (d_rav details)
  ∧ populated m "ShiurDuration" (JStr "Unavailable") (d_duration details)
  ∧ populated m "RecordDate" (JStr "") (d_record_date details)
  ∧ populated m "MainTopicHebrew" (JStr "") (d_main_topic details)
  ∧ populated m "HasAudio" (JBool false) (d_audio_available details)
  ∧ populated m "HasVideo" (JBool false) (d_video_available details)
  ∧ populated m "HasHdVideo" (JBool false) (d_hd_video_available details)
  ∧ ∃ first second,
      d_categories details = [first; second]
      ∧ populated m "CatDesc1" (JStr "") first
      ∧ populated m "CatDesc2" (JStr "") second.

(** Everything but the file [name] is the same in two states: the
    object, the calls made, what was printed, what the file system
    refuses, and every other file. *)
Definition same_outside (name : string) (st st' : St) : Prop :=
  self st' = self st
  ∧ requests (world st') = requests (world st)
  ∧ stdout (world st') = stdout (world st)
  ∧ unwritable (world st') = unwritable (world st)
  ∧ write_fails (world st') = write_fails (world st)
  ∧ ∀ path, path ≠ name → files (world st') !! path = files (world st) !! path.

(** * Properties *)

(** ** The response mappers *)

Lemma py_get_mapping m key dflt :
  py_get (JObj m) key dflt = Ok (default dflt (m !! key)).
Proof. unfold py_get. by destruct (m !! key). Qed.

Lemma py_get_not_mapping v key dflt :
  is_mapping v = false → py_get v key dflt = Raise (AttributeError "get").
Proof. by destruct v. Qed.

Lemma populated_default m key dflt : populated m key dflt (default dflt (m !! key)).
Proof.
  unfold populated. split.
  - intros v ->. done.
  - intros ->. done.
Qed.

Lemma format_shiur_mapping m :
  ∃ item, format_shiur (JObj m) = Ok item ∧ search_item_of m item.
Proof.
  unfold format_shiur. rewrite !py_get_mapping. cbn [rbind].
  eexists. split; [reflexivity|].
  unfold search_item_of. cbn [s_file_id s_title s_rav s_duration s_record_date
    s_main_topic s_category_1 s_category_2 s_audio_available s_video_available
    s_hd_video_available s_download_count s_women_only s_shiur_type s_viewed_by_user].
  repeat split; apply populated_default.
Qed.

Lemma _parse_shiur_details_mapping m :
  ∃ details, _parse_shiur_details (JObj m) = Ok details.
Proof.
  unfold _parse_shiur_details. rewrite !py_get_mapping. cbn [rbind]. by eexists.
Qed.

Lemma _parse_shiur_details_fields m :
  ∃ details, _parse_shiur_details (JObj m) = Ok details ∧ shiur_details_of m details.
Proof.
  unfold _parse_shiur_details. rewrite !py_get_mapping. cbn [rbind].
  eexists. split; [reflexivity|].
  unfold shiur_details_of.
  cbn [d_file_id d_title d_rav d_duration d_record_date d_main_topic
       d_audio_available d_video_available d_hd_video_available d_categories].
  do 9 (split; [apply populated_default|]).
  do 2 eexists. split; [reflexivity|]. split; apply populated_default.
Qed.

Lemma _parse_shiur_details_cases v :
  (∃ details, _parse_shiur_details v = Ok details)
  ∨ _parse_shiur_details v = Raise (AttributeError "get").
Proof.
  destruct (is_mapping v) eqn:Hv.
  - destruct v; try discriminate. left. apply _parse_shiur_details_mapping.
  - right. unfold _parse_shiur_details. by rewrite py_get_not_mapping.
Qed.

Lemma format_shiurim_loop_mappings (entries : list (gmap string json)) (extra : nat) :
  ∃ items,
    format_shiurim_list (S (length entries) + extra) (FsSuspended (JObj <$> entries))
      = Some (Ok items)
    ∧ Forall2 search_item_of entries items.
Proof.
  induction entries as [|m entries IH].
  - exists []. split; [reflexivity | constructor].
  - destruct IH as (items & Hrun & Hall).
    destruct (format_shiur_mapping m) as (item & Hitem & Hfields).
    exists (item :: items). split; [| by constructor].
    change (S (length (m :: entries)) + extra)%nat
      with (S (S (length entries) + extra)).
    cbn [format_shiurim_list format_shiurim_next fmap list_fmap format_shiurim_loop].
    rewrite Hitem.
    change (list_fmap _ _ JObj entries) with (JObj <$> entries).
    by rewrite Hrun.
Qed.

Lemma format_shiurim_populates_mappings (entries : list (gmap string json))
    (extra : nat) :
  ∃ items,
    format_shiurim_list (S (length entries) + extra)
                        (format_shiurim (JArr (JObj <$> entries)))
      = Some (Ok items)
    ∧ Forall2 search_item_of entries items.
Proof.
  destruct (format_shiurim_loop_mappings entries extra) as (items & Hrun & Hall).
  exists items. split; [| done].
  destruct entries as [|m entries]; [done|].
  change (S (length (m :: entries)) + extra)%nat
    with (S (S (length entries) + extra)) in *.
  exact Hrun.
Qed.

(** C1.  On a list of mappings [format_shiurim] yields one item per
    entry, in order, never raising, and every field of an item is the
    raw value under its key when the key is present and the documented
    default otherwise.  For the one entry with [FileId] 42 and the
    Hebrew title it yields exactly one item, with that id and title,
    duration ["Unavailable"], no audio and download count 0. *)
Theorem format_shiurim_populates_every_field :
  (∀ (entries : list (gmap string json)) (extra : nat),
     ∃ items,
       format_shiurim_list (S (length entries) + extra)
                           (format_shiurim (JArr (JObj <$> entries)))
         = Some (Ok items)
       ∧ Forall2 search_item_of entries items)
  ∧ (∃ item,
       format_shiurim_list 2
         (format_shiurim
            (JArr [JObj {[ "FileId" := JInt 42; "TitleHebrew" := JStr "שלום" ]}]))
         = Some (Ok [item])
       ∧ s_file_id item = JInt 42
       ∧ s_title item = JStr "שלום"
       ∧ s_duration item = JStr "Unavailable"
       ∧ s_audio_available item = JBool false
       ∧ s_download_count item = JInt 0).
Proof.
  split.
  - apply format_shiurim_populates_mappings.
  - eexists. split; [vm_compute; reflexivity|]. by vm_compute.
Qed.

(** C8, as stated, fails: on an input that is not a mapping the two
    mappers raise Python's [AttributeError], not
    [MalformedResponseError]. *)
Lemma mappers_raise_AttributeError_on_number :
  is_mapping (JInt 5) = false
  ∧ format_shiur (JInt 5) = Raise (AttributeError "get")
  ∧ _parse_shiur_details (JInt 5) = Raise (AttributeError "get")
  ∧ format_shiur (JInt 5) ≠ Raise MalformedResponseError
  ∧ _parse_shiur_details (JInt 5) ≠ Raise MalformedResponseError.
Proof. repeat split; done. Qed.

(** C8, amended.  On every input that is not a mapping both mappers
    raise [AttributeError] (for the missing attribute [get]); on every
    mapping, whatever keys it lacks, both return; so [AttributeError]
    on a non-mapping is the only way they fail, and neither ever raises
    [MalformedResponseError]. *)
Theorem mappers_fail_only_on_non_mappings (v : json) :
  (if is_mapping v
   then is_Ok (format_shiur v) = true ∧ is_Ok (_parse_shiur_details v) = true
   else format_shiur v = Raise (AttributeError "get")
        ∧ _parse_shiur_details v = Raise (AttributeError "get"))
  ∧ format_shiur v ≠ Raise MalformedResponseError
  ∧ _parse_shiur_details v ≠ Raise MalformedResponseError.
Proof.
  destruct (is_mapping v) eqn:Hv.
  - destruct v; try discriminate.
    destruct (format_shiur_mapping m) as (item & -> & _).
    destruct (_parse_shiur_details_mapping m) as (details & ->).
    done.
  - assert (format_shiur v = Raise (AttributeError "get")) as ->.
    { unfold format_shiur. by rewrite py_get_not_mapping. }
    assert (_parse_shiur_details v = Raise (AttributeError "get")) as ->.
    { unfold _parse_shiur_details. by rewrite py_get_not_mapping. }
    done.
Qed.

(** ** The methods *)

Section ApiProperties.
Context `{Collaborators}.

Lemma session_request_run (r : Request) (st : St) :
  session_request r st
  = (match answer_to r st with
     | Some response => Ok response
     | None => Raise RequestException
     end, sent r st).
Proof.
  unfold session_request, answer_to, sent.
  by destruct (remote (world st) (requests (world st)) r).
Qed.

Lemma eqb_empty_false (s : string) : s ≠ "" → String.eqb s "" = false.
Proof. intros Hs. by apply String.eqb_neq. Qed.

Lemma login_run (user pass : string) (st : St) :
  user ≠ "" → pass ≠ "" →
  __login user pass st
  = match answer_to (login_call user pass) st with
    | None => (Raise RequestException, sent (login_call user pass) st)
    | Some response =>
        if (status_code response =? 200)%Z then
          match body_json response with
          | None => (Raise JSONDecodeError, sent (login_call user pass) st)
          | Some data =>
              match py_get data "Token" JNull with
              | Raise e => (Raise e, sent (login_call user pass) st)
              | Ok token =>
                  if py_truthy token then
                    match py_get data "SiteKey" (JStr "") with
                    | Raise e => (Raise e, sent (login_call user pass) st)
                    | Ok key =>
                        (Ok true,
                         with_session_manager
                           (set_tokens token key (session_manager (self st)))
                           (sent (login_call user pass) st))
                    end
                  else
                    (Raise (AuthenticationError "Login successful but no token found"),
                     sent (login_call user pass) st)
              end
          end
        else
          (Raise (AuthenticationError
                    ("Login failed with status code " +:+ pretty (status_code response))),
           sent (login_call user pass) st)
    end.
Proof.
  intros Hu Hp. unfold __login.
  rewrite (eqb_empty_false user Hu), (eqb_empty_false pass Hp). cbn [orb].
  unfold bind at 1. unfold session_post.
  change (session_request _ st) with (session_request (login_call user pass) st).
  rewrite session_request_run.
  destruct (answer_to (login_call user pass) st) as [response|]; [|done].
  destruct (status_code response =? 200)%Z; [|done].
  unfold bind at 1, response_json.
  destruct (body_json response) as [data|]; [|done].
  cbn [ret]. unfold bind at 1, lift.
  destruct (py_get data "Token" JNull) as [token|e]; [|done].
  destruct (py_truthy token); [|done].
  unfold bind at 1.
  destruct (py_get data "SiteKey" (JStr "")) as [key|e]; [|done].
  done.
Qed.

Lemma login_without_credentials (user pass : string) (st : St) :
  user = "" ∨ pass = "" →
  __login user pass st
  = (Raise (AuthenticationError "Username and password are required"), st).
Proof.
  intros Hempty. unfold __login.
  assert (String.eqb user "" || String.eqb pass "" = true) as ->; [|done].
  apply orb_true_iff.
  destruct Hempty as [-> | ->]; [left | right]; done.
Qed.

Lemma credentials_dec (user pass : string) :
  (user = "" ∨ pass = "") ∨ (user ≠ "" ∧ pass ≠ "").
Proof.
  destruct (decide (user = "")); [by left; left|].
  destruct (decide (pass = "")); [by left; right|].
  by right.
Qed.

Lemma login_logs_one_call (user pass : string) (st : St) :
  user ≠ "" → pass ≠ "" →
  requests (world (__login user pass st).2)
  = (requests (world st) ++ [login_call user pass])%list.
Proof.
  intros Hu Hp. rewrite login_run by done.
  repeat case_match; done.
Qed.

(** C2, amended.  With an empty username or password [login] raises
    [AuthenticationError] and leaves the object and the world as they
    were (no call is made).  Otherwise it records exactly one call, the
    login POST, and when the service answers it: a status other than 200
    raises [AuthenticationError] with the status code in its message; a
    200 whose body is a mapping with no [Token], or with a [Token] that
    Python treats as false (such as the empty string), raises
    [AuthenticationError]; a 200 whose body is a mapping with a [Token]
    that Python treats as true returns [True] after [set_tokens] has
    been given the token and the site key, the latter being [""] when
    [SiteKey] is absent. *)
Theorem login_outcomes (user pass : string) (st : St) :
  (user = "" ∨ pass = "" →
   __login user pass st
   = (Raise (AuthenticationError "Username and password are required"), st))
  ∧ (user ≠ "" → pass ≠ "" →
     requests (world (__login user pass st).2)
     = (requests (world st) ++ [login_call user pass])%list
     ∧ ∀ response, answer_to (login_call user pass) st = Some response →
       (status_code response ≠ 200 →
        __login user pass st
        = (Raise (AuthenticationError
                    ("Login failed with status code "
                     +:+ pretty (status_code response))),
           sent (login_call user pass) st))
       ∧ (status_code response = 200 →
          ∀ m, body_json response = Some (JObj m) →
          ((m !! "Token" = None
            ∨ ∃ token, m !! "Token" = Some token ∧ py_truthy token = false) →
           __login user pass st
           = (Raise (AuthenticationError "Login successful but no token found"),
              sent (login_call user pass) st))
          ∧ (∀ token, m !! "Token" = Some token → py_truthy token = true →
             __login user pass st
             = (Ok true,
                with_session_manager
                  (set_tokens token (default (JStr "") (m !! "SiteKey"))
                              (session_manager (self st)))
                  (sent (login_call user pass) st))))).
Proof.
  split; [apply login_without_credentials|].
  intros Hu Hp. split; [by apply login_logs_one_call|].
  intros response Hanswer. rewrite login_run, Hanswer by done.
  split.
  - intros Hstatus. apply Z.eqb_neq in Hstatus. by rewrite Hstatus.
  - intros -> m ->. cbn [Z.eqb Pos.eqb]. rewrite !py_get_mapping. split.
    + intros [-> | (token & -> & Hfalse)]; cbn [default from_option id]; [done|].
      by rewrite Hfalse.
    + intros token -> Htrue. cbn [default from_option id]. by rewrite Htrue.
Qed.

(** C10, amended.  A 200 answer whose body maps [Token] to the empty
    string is treated as one without [Token]: [login] raises
    [AuthenticationError] and [set_tokens] does not run.  Whenever
    [login] raises, the session store is as it was before the call, so
    a token stored earlier stays, empty or not.  Whenever [login]
    returns, the answer was a 200 whose body is a mapping with a
    [Token] that Python treats as true, neither [None] nor the empty
    string though not always a string, and [set_tokens] has run once,
    on that token and the site key; so on a store that keeps the token
    it is given the stored token is then neither [None] nor the empty
    string. *)
Theorem login_never_stores_empty_token (user pass : string) (st : St) :
  (∀ response m,
     user ≠ "" → pass ≠ "" →
     answer_to (login_call user pass) st = Some response →
     status_code response = 200 →
     body_json response = Some (JObj m) →
     m !! "Token" = Some (JStr "") ∨ m !! "Token" = None →
     __login user pass st
     = (Raise (AuthenticationError "Login successful but no token found"),
        sent (login_call user pass) st))
  ∧ (∀ e st', __login user pass st = (Raise e, st') →
     session_manager (self st') = session_manager (self st))
  ∧ (∀ r st', __login user pass st = (Ok r, st') →
     ∃ response m token,
       answer_to (login_call user pass) st = Some response
       ∧ status_code response = 200
       ∧ body_json response = Some (JObj m)
       ∧ m !! "Token" = Some token
       ∧ py_truthy token = true
       ∧ token ≠ JNull
       ∧ token ≠ JStr ""
       ∧ st' = with_session_manager
                 (set_tokens token (default (JStr "") (m !! "SiteKey"))
                             (session_manager (self st)))
                 (sent (login_call user pass) st))
  ∧ ((∀ token key sm, auth_token (session_data (set_tokens token key sm)) = token) →
     ∀ r st', __login user pass st = (Ok r, st') →
     py_truthy (stored_token st') = true
     ∧ stored_token st' ≠ JNull
     ∧ stored_token st' ≠ JStr "").
Proof.
  assert (Htruthy : ∀ token, py_truthy token = true →
     token ≠ JNull ∧ token ≠ JStr "").
  { intros token Htoken. split; by intros ->. }
  assert (Hreturns : ∀ r st', __login user pass st = (Ok r, st') →
     ∃ response m token,
       answer_to (login_call user pass) st = Some response
       ∧ status_code response = 200
       ∧ body_json response = Some (JObj m)
       ∧ m !! "Token" = Some token
       ∧ py_truthy token = true
       ∧ st' = with_session_manager
                 (set_tokens token (default (JStr "") (m !! "SiteKey"))
                             (session_manager (self st)))
                 (sent (login_call user pass) st)).
  { intros r st'.
    destruct (credentials_dec user pass) as [Hempty | [Hu Hp]].
    { by rewrite login_without_credentials. }
    rewrite login_run by done.
    destruct (answer_to (login_call user pass) st) as [response|]; [|done].
    destruct (status_code response =? 200)%Z eqn:Hstatus; [|done].
    apply Z.eqb_eq in Hstatus.
    destruct (body_json response) as [data|] eqn:Hbody; [|done].
    destruct data as [| | | | | |m]; try done.
    rewrite !py_get_mapping.
    destruct (m !! "Token") as [token|] eqn:Htoken; cbn [default from_option id];
      [|done].
    destruct (py_truthy token) eqn:Htrue; [|done].
    intros [= <- <-]. by exists response, m, token. }
  split; [|split; [|split]].
  - intros response m Hu Hp Hanswer Hstatus Hbody Htoken.
    rewrite login_run, Hanswer, Hstatus, Hbody by done.
    cbn [Z.eqb Pos.eqb]. rewrite py_get_mapping.
    by destruct Htoken as [-> | ->].
  - intros e st'.
    destruct (credentials_dec user pass) as [Hempty | [Hu Hp]].
    { rewrite login_without_credentials by done. by intros [= _ <-]. }
    rewrite login_run by done.
    repeat case_match; try done; by intros [= _ <-].
  - intros r st' Hrun.
    destruct (Hreturns r st' Hrun)
      as (response & m & token & Hanswer & Hstatus & Hbody & Htoken & Htrue & ->).
    destruct (Htruthy token Htrue).
    by exists response, m, token.
  - intros Hkeeps r st' Hrun.
    destruct (Hreturns r st' Hrun)
      as (response & m & token & _ & _ & _ & _ & Htrue & ->).
    unfold stored_token. cbn [with_session_manager self session_manager].
    rewrite Hkeeps. destruct (Htruthy token Htrue). done.
Qed.

(** *** Session initialization *)

Lemma login_keeps_stdout (user pass : string) (st : St) :
  stdout (world (__login user pass st).2) = stdout (world st).
Proof.
  destruct (credentials_dec user pass) as [Hempty | [Hu Hp]].
  - by rewrite login_without_credentials.
  - rewrite login_run by done. repeat case_match; done.
Qed.

Lemma login_fallback_run (st : St) :
  login_fallback st
  = match __login (username (self st)) (password (self st))
            (printed "Session not found or invalid, attempting to login." st) with
    | (Ok _, st') => (Ok tt, st')
    | (Raise e, st') => (Raise e, st')
    end.
Proof.
  unfold login_fallback, bind, print, set_world, gets, printed, ret. cbn [self].
  by destruct (__login _ _ _) as [[] ?].
Qed.

Lemma init_session_run (st : St) :
  _init_session st
  = match load_session (world st) (session_manager (self st)) with
    | Ok loaded =>
        if is_token_valid loaded then (Ok tt, with_session_manager loaded st)
        else login_fallback (with_session_manager loaded st)
    | Raise SessionNotLoadedException => login_fallback st
    | Raise e => (Raise e, st)
    end.
Proof.
  unfold _init_session, try_except, bind, try_update_session_manager, gets.
  destruct (load_session (world st) (session_manager (self st))) as [loaded|e].
  - cbn [with_session_manager self session_manager].
    by destruct (is_token_valid loaded).
  - by destruct e.
Qed.

(** C3.  Constructing the object in session-backed mode first loads
    the session and checks the token.  When loading succeeds and the
    token is valid, construction ends there: nothing is printed and no
    call is made.  When loading raises [SessionNotLoadedException] or
    the token is not valid, construction goes on as the login fallback,
    which announces itself on standard output and calls [login] with the
    configured username and password.  Any other exception of loading
    leaves construction without a login.  So the announcement of a login
    is printed exactly when login is due. *)
Theorem init_session_policy (user pass : option string) (file : string) (w : World) :
  let st0 := constructed user pass true file w in
  let run := __init__ user pass true file w in
  match load_session w (session_manager (self st0)) with
  | Ok loaded =>
      if is_token_valid loaded
      then run = (Ok tt, with_session_manager loaded st0)
      else run = login_fallback (with_session_manager loaded st0)
  | Raise SessionNotLoadedException => run = login_fallback st0
  | Raise e => run = (Raise e, st0)
  end
  ∧ (∀ st, login_fallback st
           = match __login (username (self st)) (password (self st))
                     (printed "Session not found or invalid, attempting to login." st)
             with
             | (Ok _, st') => (Ok tt, st')
             | (Raise e, st') => (Raise e, st')
             end)
  ∧ stdout (world run.2)
    = (stdout w ++ if login_due w (session_manager (self st0))
                   then ["Session not found or invalid, attempting to login."]
                   else [])%list
  ∧ (if login_due w (session_manager (self st0))
     then True
     else requests (world run.2) = requests w).
Proof.
  intros st0 run.
  assert (Hrun : run = _init_session st0) by done.
  assert (Hworld : world st0 = w) by done.
  assert (Hprinted : ∀ st, world st = w →
    stdout (world (login_fallback st).2)
    = (stdout w ++ ["Session not found or invalid, attempting to login."])%list).
  { intros st Hst. rewrite login_fallback_run.
    pose proof (login_keeps_stdout (username (self st)) (password (self st))
      (printed "Session not found or invalid, attempting to login." st)) as Hkeep.
    destruct (__login _ _ _) as [[] st']; cbn [snd] in *;
      rewrite Hkeep; cbn; by rewrite Hst. }
  rewrite Hrun, init_session_run, Hworld. unfold login_due.
  destruct (load_session w (session_manager (self st0))) as [loaded|e].
  - destruct (is_token_valid loaded); cbn [negb].
    + split; [done|]. split; [apply login_fallback_run|].
      split; [|done]. cbn. by rewrite app_nil_r.
    + split; [done|]. split; [apply login_fallback_run|].
      split; [|done]. by apply Hprinted.
  - destruct e;
      (split; [done|]); (split; [apply login_fallback_run|]);
      (split; [|done]); first [by apply Hprinted | cbn; by rewrite app_nil_r].
Qed.

(** *** The speaker listing *)

Lemma search_rav_shiurim_body_run (rav_id : Z) (st : St) :
  search_rav_shiurim_body rav_id st
  = (match answer_to (rav_shiurim_call rav_id (stored_headers st)) st with
     | None => Raise RequestException
     | Some response =>
         if (status_code response =? 200)%Z then
           match body_json response with
           | Some shiurim => Ok (format_shiurim shiurim)
           | None => Raise JSONDecodeError
           end
         else
           Raise (SearchFailedException
                    ("Error fetching Rav Shiurim for Rav ID: " +:+ pretty rav_id)
                    (status_code response))
     end, sent (rav_shiurim_call rav_id (stored_headers st)) st).
Proof.
  unfold search_rav_shiurim_body, bind, session_manager_headers, gets, session_post.
  change (session_request _ st)
    with (session_request (rav_shiurim_call rav_id (stored_headers st)) st).
  rewrite session_request_run.
  destruct (answer_to _ st) as [response|]; [|done].
  destruct (status_code response =? 200)%Z; [|done].
  unfold response_json. by destruct (body_json response).
Qed.

(** Once the body has reached [yield from], [list] only drives the
    inner generator: the state no longer changes. *)
Lemma search_rav_shiurim_list_delegating (fuel : nat) (inner : format_shiurim_gen)
    (st : St) :
  search_rav_shiurim_list fuel (RavDelegating inner) st
  = (λ r, (r, st)) <$> format_shiurim_list fuel inner.
Proof.
  revert inner. induction fuel as [|fuel IH]; intros inner; [done|].
  cbn [search_rav_shiurim_list search_rav_shiurim_next format_shiurim_list].
  unfold delegate.
  destruct (format_shiurim_next inner) as [[item| |e] inner']; [|done|done].
  rewrite IH.
  by destruct (format_shiurim_list fuel inner') as [[items|e]|].
Qed.

Lemma search_rav_shiurim_list_created (fuel : nat) (rav_id : Z) (st : St) :
  search_rav_shiurim_list (S fuel) (RavCreated rav_id) st
  = match search_rav_shiurim_body rav_id st with
    | (Ok inner, st') => (λ r, (r, st')) <$> format_shiurim_list (S fuel) inner
    | (Raise e, st') => Some (Raise e, st')
    end.
Proof.
  cbn [search_rav_shiurim_list search_rav_shiurim_next format_shiurim_list].
  destruct (search_rav_shiurim_body rav_id st) as [[inner|e] st']; [|done].
  unfold delegate.
  destruct (format_shiurim_next inner) as [[item| |e] inner']; [|done|done].
  rewrite search_rav_shiurim_list_delegating.
  by destruct (format_shiurim_list fuel inner') as [[items|e]|].
Qed.

(** C4.  Calling [search_rav_shiurim] returns a generator and leaves
    the world as it was: no call is made and nothing is raised.  The
    first [next] records the single POST.  When the service answers it
    with a status other than 200 that [next] raises
    [SearchFailedException] with the rav id in its message and the
    status code; when it answers 200 with a list of mappings, iterating
    yields the mapped items, one per entry, and makes no further call. *)
Theorem search_rav_shiurim_is_lazy (rav_id : Z) (st : St) :
  let call := rav_shiurim_call rav_id (stored_headers st) in
  search_rav_shiurim rav_id st = (Ok (RavCreated rav_id), st)
  ∧ (search_rav_shiurim_next (RavCreated rav_id) st).2 = sent call st
  ∧ (∀ inner st', (search_rav_shiurim_next (RavDelegating inner) st').2 = st')
  ∧ ∀ response, answer_to call st = Some response →
    (status_code response ≠ 200 →
     search_rav_shiurim_next (RavCreated rav_id) st
     = ((Throw (SearchFailedException
                  ("Error fetching Rav Shiurim for Rav ID: " +:+ pretty rav_id)
                  (status_code response)),
         RavFinished),
        sent call st))
    ∧ (status_code response = 200 →
       ∀ entries : list (gmap string json),
       body_json response = Some (JArr (JObj <$> entries)) →
       ∀ extra : nat, ∃ items,
         search_rav_shiurim_list (S (length entries) + extra) (RavCreated rav_id) st
         = Some (Ok items, sent call st)
         ∧ Forall2 search_item_of entries items).
Proof.
  intros call. split; [done|]. split; [|split; [done|]].
  - cbn [search_rav_shiurim_next]. rewrite search_rav_shiurim_body_run.
    fold call. by repeat case_match.
  - intros response Hanswer. split.
    + intros Hstatus. apply Z.eqb_neq in Hstatus.
      cbn [search_rav_shiurim_next]. rewrite search_rav_shiurim_body_run.
      fold call. by rewrite Hanswer, Hstatus.
    + intros Hstatus entries Hbody extra.
      destruct format_shiurim_populates_mappings with (entries := entries) (extra := extra)
        as (items & Hrun & Hall).
      exists items. split; [|done].
      change (S (length entries) + extra)%nat with (S (length entries + extra)).
      rewrite search_rav_shiurim_list_created, search_rav_shiurim_body_run.
      fold call. rewrite Hanswer, Hstatus, Hbody. cbn [Z.eqb Pos.eqb].
      change (S (length entries + extra)) with (S (length entries) + extra)%nat.
      by rewrite Hrun.
Qed.

(** *** Downloads *)

Lemma same_outside_refl (name : string) (st : St) : same_outside name st st.
Proof. by repeat split. Qed.

Lemma same_outside_trans (name : string) (st1 st2 st3 : St) :
  same_outside name st1 st2 → same_outside name st2 st3 → same_outside name st1 st3.
Proof.
  intros (Hs & Hr & Ho & Hu & Hw & Hf) (Hs' & Hr' & Ho' & Hu' & Hw' & Hf').
  repeat split; try congruence.
  intros path Hpath. by rewrite Hf', Hf.
Qed.

Lemma file_open_wb_frame (name : string) (st : St) :
  same_outside name st (file_open_wb name st).2.
Proof.
  unfold file_open_wb. destruct (unwritable (world st) name).
  - apply same_outside_refl.
  - repeat split; try done. intros path Hpath. cbn. by rewrite lookup_insert_ne.
Qed.

Lemma file_write_frame (name : string) (chunk : list Byte.byte) (st : St) :
  same_outside name st (file_write name chunk st).2.
Proof.
  unfold file_write. cbn zeta. destruct (write_fails (world st) name _).
  - apply same_outside_refl.
  - repeat split; try done. intros path Hpath. cbn. by rewrite lookup_insert_ne.
Qed.

Lemma for_each_step {A} (x : A) (rest : list A) (body : A → M unit) (st : St) :
  for_each (x :: rest) body st
  = match body x st with
    | (Ok _, st') => for_each rest body st'
    | (Raise e, st') => (Raise e, st')
    end.
Proof. done. Qed.

Lemma write_chunks_frame (name : string) (chunks : list (list Byte.byte)) (st : St) :
  same_outside name st (for_each chunks (file_write name) st).2.
Proof.
  revert st. induction chunks as [|chunk chunks IH]; intros st.
  - apply same_outside_refl.
  - rewrite for_each_step.
    pose proof (file_write_frame name chunk st) as Hstep.
    destruct (file_write name chunk st) as [[[]|e] st1]; cbn [snd] in *; [|done].
    by eapply same_outside_trans.
Qed.

(** Whatever happens while the chunks are written, the file holds the
    old content followed by the first [k] chunks, for some [k]; the
    writes either all succeed or stop with [OSError]. *)
Lemma write_chunks_prefix (name : string) (chunks : list (list Byte.byte)) :
  ∀ (st : St) (old : list Byte.byte),
    files (world st) !! name = Some old →
    (∃ k, files (world (for_each chunks (file_write name) st).2) !! name
          = Some (old ++ concat (take k chunks))%list)
    ∧ ((for_each chunks (file_write name) st).1 = Ok tt
       ∧ files (world (for_each chunks (file_write name) st).2) !! name
         = Some (old ++ concat chunks)%list
       ∨ (for_each chunks (file_write name) st).1 = Raise OSError).
Proof.
  induction chunks as [|chunk chunks IH]; intros st old Hold.
  - split.
    + exists 0%nat. cbn. by rewrite app_nil_r.
    + left. cbn. by rewrite app_nil_r.
  - rewrite for_each_step. unfold file_write at 1 3 5 7. cbn zeta.
    rewrite Hold. cbn [default from_option id].
    destruct (write_fails (world st) name (old ++ chunk)).
    + cbn [fst snd]. split; [|by right].
      exists 0%nat. cbn. by rewrite app_nil_r.
    + unfold set_world.
      set (st1 := {| self := self st; world := _ |}).
      destruct (IH st1 (old ++ chunk)%list) as [[k Hk] Hend].
      { subst st1. cbn. by rewrite lookup_insert_eq. }
      split.
      * exists (S k). cbn [take concat]. by rewrite Hk, <- app_assoc.
      * destruct Hend as [[Hok Hfile] | Hraise]; [left | by right].
        split; [done|]. cbn [concat]. by rewrite Hfile, <- app_assoc.
Qed.

Lemma write_chunks (name : string) (chunks : list (list Byte.byte)) :
  ∀ (st : St) (old : list Byte.byte),
    files (world st) !! name = Some old →
    (∀ k, write_fails (world st) name (old ++ concat (take k chunks))%list = false) →
    ∃ st',
      for_each chunks (file_write name) st = (Ok tt, st')
      ∧ files (world st') !! name = Some (old ++ concat chunks)%list.
Proof.
  induction chunks as [|chunk chunks IH]; intros st old Hold Hfits.
  - exists st. by rewrite app_nil_r.
  - rewrite for_each_step. unfold file_write at 1. cbn zeta.
    rewrite Hold. cbn [default from_option id].
    pose proof (Hfits 1%nat) as Hfirst. cbn in Hfirst.
    rewrite app_nil_r in Hfirst. rewrite Hfirst.
    unfold set_world.
    set (st1 := {| self := self st; world := _ |}).
    destruct (IH st1 (old ++ chunk)%list) as (st' & Hrun & Hfile).
    { subst st1. cbn. by rewrite lookup_insert_eq. }
    { intros k. pose proof (Hfits (S k)) as Hk. cbn [take concat] in Hk.
      subst st1. cbn. by rewrite <- app_assoc. }
    exists st'. split; [done|]. cbn [concat]. by rewrite Hfile, <- app_assoc.
Qed.

Lemma save_stream_frame (name : string) (response : Response) (st : St) :
  same_outside name st (save_stream name response st).2.
Proof.
  unfold save_stream. unfold bind at 1.
  pose proof (file_open_wb_frame name st) as Hopen.
  destruct (file_open_wb name st) as [[[]|e] st1]; cbn [snd] in *; [|done].
  unfold bind at 1.
  pose proof (write_chunks_frame name (body_chunks response) st1) as Hwrite.
  destruct (for_each _ _ st1) as [[[]|e] st2]; cbn [snd] in *.
  - destruct (stream_breaks response); by eapply same_outside_trans.
  - by eapply same_outside_trans.
Qed.

Lemma save_stream_run (name : string) (response : Response) (st : St) :
  save_stream name response st
  = if unwritable (world st) name then (Raise OSError, st)
    else
      match for_each (body_chunks response) (file_write name)
              {| self := self st;
                 world := update_files (λ fs, <[name := []]> fs) (world st) |} with
      | (Ok _, st') =>
          if stream_breaks response then (Raise RequestException, st')
          else (Ok tt, st')
      | (Raise e, st') => (Raise e, st')
      end.
Proof.
  unfold save_stream, bind, file_open_wb, set_world.
  destruct (unwritable (world st) name); [done|].
  destruct (for_each _ _ _) as [[[]|e] st']; [|done].
  by destruct (stream_breaks response).
Qed.

(** The outcomes of the block: when the file cannot be opened nothing
    has changed; otherwise the file holds the first [k] chunks of the
    body for some [k], all of them when the block ends normally. *)
Lemma save_stream_outcomes (name : string) (response : Response) (st : St) :
  if unwritable (world st) name
  then save_stream name response st = (Raise OSError, st)
  else (∃ k, files (world (save_stream name response st).2) !! name
             = Some (concat (take k (body_chunks response))))
       ∧ ((save_stream name response st).1 = Ok tt
          ∧ files (world (save_stream name response st).2) !! name
            = Some (concat (body_chunks response))
          ∨ (save_stream name response st).1 = Raise OSError
          ∨ (save_stream name response st).1 = Raise RequestException).
Proof.
  rewrite save_stream_run.
  destruct (unwritable (world st) name); [done|].
  set (st1 := {| self := self st; world := _ |}).
  destruct (write_chunks_prefix name (body_chunks response) st1 [])
    as [[k Hk] Hend].
  { subst st1. cbn. by rewrite lookup_insert_eq. }
  cbn [app] in *.
  destruct (for_each _ _ st1) as [[[]|e] st2]; cbn [fst snd] in *.
  - destruct Hend as [[_ Hfile] | Hraise]; [|done].
    assert (Hall : ∃ k', files (world st2) !! name
                         = Some (concat (take k' (body_chunks response)))).
    { exists (length (body_chunks response)). by rewrite firstn_all. }
    destruct (stream_breaks response); cbn [fst snd]; (split; [done|]).
    + by right; right.
    + by left.
  - split; [by exists k|]. destruct Hend as [[Hok _] | Hraise]; [done|].
    right; left. done.
Qed.

Lemma save_stream_completes (name : string) (response : Response) (st : St) :
  unwritable (world st) name = false →
  (∀ k, write_fails (world st) name (concat (take k (body_chunks response))) = false) →
  stream_breaks response = false →
  ∃ st',
    save_stream name response st = (Ok tt, st')
    ∧ files (world st') !! name = Some (concat (body_chunks response)).
Proof.
  intros Hopen Hfits Hstream. rewrite save_stream_run, Hopen, Hstream.
  set (st1 := {| self := self st; world := _ |}).
  destruct (write_chunks name (body_chunks response) st1 [])
    as (st' & Hrun & Hfile).
  { subst st1. cbn. by rewrite lookup_insert_eq. }
  { intros k. subst st1. cbn. apply Hfits. }
  rewrite Hrun. by exists st'.
Qed.

Lemma download_file_run (file_id : Z) (q : QualityLevel) (st st1 : St) (key : string) :
  use_session (self st) = true →
  get_download_key file_id st = (Ok key, st1) →
  let call := download_call file_id q key (stored_headers st1) in
  let st2 := printed (download_url file_id q key) st1 in
  download_file file_id q st
  = match answer_to call st2 with
    | None => (Raise RequestException, sent call st2)
    | Some response =>
        if (status_code response =? 200)%Z then
          (do! save_stream (download_name file_id q) response in
           ret (download_name file_id q)) (sent call st2)
        else
          (Raise (DownloadFailedException "Download failed" (status_code response)
                                          file_id q),
           sent call st2)
    end.
Proof.
  intros Hsession Hkey call st2.
  unfold download_file. unfold bind at 1, gets at 1. rewrite Hsession. cbn [negb].
  unfold bind at 1. rewrite Hkey.
  unfold bind at 1, print at 1, set_world at 1.
  change {| self := self st1; world := write_stdout _ (world st1) |} with st2.
  unfold bind at 1, session_manager_headers, gets, session_get.
  unfold bind at 1.
  change (session_request _ st2) with (session_request call st2).
  rewrite session_request_run.
  destruct (answer_to call st2) as [response|]; [|done].
  destruct (status_code response =? 200)%Z; [|done].
  by destruct q.
Qed.

(** C5.  Without session-backed mode [download_file] raises
    [SessionDisabledException] at once, for every file id and quality
    level: the object and the world are as they were, so no call was
    made and no file touched. *)
Theorem download_file_needs_session (file_id : Z) (q : QualityLevel) (st : St) :
  use_session (self st) = false →
  download_file file_id q st = (Raise SessionDisabledException, st).
Proof.
  intros Hsession. unfold download_file, bind, gets. by rewrite Hsession.
Qed.

(** C6.  In session-backed mode, once the download key is obtained and
    the service answers the download call.  On 200, when the file can
    be opened and written and the stream completes, [download_file]
    returns the name [shiur_{file_id}_audio.mp3],
    [shiur_{file_id}_video.mp4] or [shiur_{file_id}_hd.mp4] according to
    the quality level, which for file 7 and VIDEO is
    ["shiur_7_video.mp4"], and the file of that name holds the chunks of
    the body in order; on 200 the call never ends otherwise than by
    returning that name or by the [OSError] of the file system or the
    [RequestException] of the broken stream.  On any other status it
    raises [DownloadFailedException] with the status code, the file id
    and the quality level. *)
Theorem download_file_outcomes (file_id : Z) (q : QualityLevel) (st st1 : St)
    (key : string) (response : Response) :
  use_session (self st) = true →
  get_download_key file_id st = (Ok key, st1) →
  let call := download_call file_id q key (stored_headers st1) in
  let st2 := printed (download_url file_id q key) st1 in
  answer_to call st2 = Some response →
  (status_code response = 200 →
   (unwritable (world st1) (download_name file_id q) = false →
    (∀ k, write_fails (world st1) (download_name file_id q)
            (concat (take k (body_chunks response))) = false) →
    stream_breaks response = false →
    ∃ st', download_file file_id q st = (Ok (download_name file_id q), st')
           ∧ files (world st') !! download_name file_id q
             = Some (concat (body_chunks response))
           ∧ (file_id = 7 → q = VIDEO →
              (download_file file_id q st).1 = Ok "shiur_7_video.mp4"))
   ∧ ((download_file file_id q st).1 = Ok (download_name file_id q)
      ∨ (download_file file_id q st).1 = Raise OSError
      ∨ (download_file file_id q st).1 = Raise RequestException))
  ∧ (status_code response ≠ 200 →
     download_file file_id q st
     = (Raise (DownloadFailedException "Download failed" (status_code response)
                                       file_id q),
        sent call st2)).
Proof.
  intros Hsession Hkey call st2 Hanswer.
  rewrite (download_file_run file_id q st st1 key Hsession Hkey).
  fold call st2. rewrite Hanswer. split.
  - intros ->. cbn [Z.eqb Pos.eqb]. unfold bind. split.
    + intros Hopen Hfits Hstream.
      destruct (save_stream_completes (download_name file_id q) response
                  (sent call st2) Hopen Hfits Hstream) as (st' & -> & Hfile).
      exists st'. split; [done|]. split; [done|]. by intros -> ->.
    + pose proof (save_stream_outcomes (download_name file_id q) response
                    (sent call st2)) as Hout.
      destruct (unwritable (world (sent call st2)) (download_name file_id q)).
      * rewrite Hout. by right; left.
      * destruct Hout as [_ Hend].
        destruct (save_stream _ _ _) as [[[]|e] st']; cbn [fst] in *.
        -- by left.
        -- destruct Hend as [[Hok _] | [[= ->] | [= ->]]];
             [done | by right; left | by right; right].
  - intros Hstatus. apply Z.eqb_neq in Hstatus. by rewrite Hstatus.
Qed.

(** *** Item details *)

Lemma get_shiur_details_run (file_id : Z) (st : St) :
  get_shiur_details file_id st
  = (match answer_to (shiur_details_call file_id (stored_headers st)) st with
     | None => Raise RequestException
     | Some response =>
         if (status_code response =? 200)%Z then
           match body_json response with
           | Some data => _parse_shiur_details data
           | None => Raise JSONDecodeError
           end
         else Raise (ShiurDetailsNotFoundException file_id)
     end, sent (shiur_details_call file_id (stored_headers st)) st).
Proof.
  unfold get_shiur_details, bind, session_manager_headers, gets, session_get.
  change (session_request _ st)
    with (session_request (shiur_details_call file_id (stored_headers st)) st).
  rewrite session_request_run.
  destruct (answer_to _ st) as [response|]; [|done].
  destruct (status_code response =? 200)%Z; [|done].
  unfold response_json. destruct (body_json response) as [data|]; [|done].
  cbn [ret]. unfold lift. by destruct (_parse_shiur_details data).
Qed.

(** C9.  [get_shiur_details] raises [ShiurDetailsNotFoundException]
    exactly when the details endpoint answers with a status other than
    200, and the exception carries the file id asked for and nothing
    else; a 404 for file 99 raises it with file id 99; on 200 with a
    mapping as body it returns the mapped details: every field is the
    raw value under its key or the documented default, and the
    categories are the pair of [CatDesc1] and [CatDesc2]. *)
Theorem get_shiur_details_outcomes (file_id : Z) (st : St) :
  let call := shiur_details_call file_id (stored_headers st) in
  (∀ carried,
     (get_shiur_details file_id st).1 = Raise (ShiurDetailsNotFoundException carried)
     ↔ carried = file_id
       ∧ ∃ response, answer_to call st = Some response ∧ status_code response ≠ 200)
  ∧ (∀ response m,
       answer_to call st = Some response →
       status_code response = 200 →
       body_json response = Some (JObj m) →
       ∃ details, _parse_shiur_details (JObj m) = Ok details
                  ∧ shiur_details_of m details
                  ∧ get_shiur_details file_id st = (Ok details, sent call st))
  ∧ (∀ response,
       file_id = 99 →
       answer_to call st = Some response →
       status_code response = 404 →
       (get_shiur_details file_id st).1 = Raise (ShiurDetailsNotFoundException 99)).
Proof.
  intros call. rewrite get_shiur_details_run. fold call. cbn [fst].
  split; [|split].
  - intros carried. split.
    + destruct (answer_to call st) as [response|]; [|done].
      destruct (status_code response =? 200)%Z eqn:Hstatus.
      * destruct (body_json response) as [data|]; [|done].
        destruct (_parse_shiur_details_cases data) as [[details ->] | ->]; done.
      * intros [= <-]. split; [done|]. exists response. split; [done|].
        by apply Z.eqb_neq.
    + intros [-> (response & -> & Hstatus)].
      apply Z.eqb_neq in Hstatus. by rewrite Hstatus.
  - intros response m -> -> ->. cbn [Z.eqb Pos.eqb].
    destruct (_parse_shiur_details_fields m) as (details & Hdetails & Hfields).
    exists details. by rewrite Hdetails.
  - by intros response -> -> ->.
Qed.

(** *** Request headers *)

Lemma search_items_logs_one_call (keyword : string) (user_id : Z) (st : St) :
  requests (world (search_items keyword user_id st).2)
  = (requests (world st) ++ [search_items_call keyword user_id])%list.
Proof.
  unfold search_items, bind, session_get.
  change (session_request _ st)
    with (session_request (search_items_call keyword user_id) st).
  rewrite session_request_run.
  destruct (answer_to _ st) as [response|]; [|done].
  destruct (status_code response =? 200)%Z; [|done].
  unfold response_json. by destruct (body_json response).
Qed.

(** C7, amended.  The requests of [login] and [search_items] carry
    exactly the two fixed headers [origin] and [referer], with no
    authorization header whatever the session store holds; the requests
    of [search_rav_shiurim], [get_shiur_details] and [download_file]
    carry the header mapping of the session store as it is when the call
    is made. *)
Theorem requests_carry_the_headers_passed (st : St) :
  (_headers !! "origin" = Some "https://www2.kolhalashon.com"
   ∧ _headers !! "referer" = Some "https://www2.kolhalashon.com/"
   ∧ size _headers = 2%nat
   ∧ _headers !! "authorization" = None)
  ∧ (∀ keyword user_id,
       requests (world (search_items keyword user_id st).2)
       = (requests (world st) ++ [search_items_call keyword user_id])%list
       ∧ req_headers (search_items_call keyword user_id) = _headers)
  ∧ (∀ user pass, user ≠ "" → pass ≠ "" →
       requests (world (__login user pass st).2)
       = (requests (world st) ++ [login_call user pass])%list
       ∧ req_headers (login_call user pass) = _headers)
  ∧ (∀ rav_id,
       requests (world (search_rav_shiurim_next (RavCreated rav_id) st).2)
       = (requests (world st) ++ [rav_shiurim_call rav_id (stored_headers st)])%list
       ∧ req_headers (rav_shiurim_call rav_id (stored_headers st)) = stored_headers st)
  ∧ (∀ file_id,
       requests (world (get_shiur_details file_id st).2)
       = (requests (world st) ++ [shiur_details_call file_id (stored_headers st)])%list
       ∧ req_headers (shiur_details_call file_id (stored_headers st))
         = stored_headers st)
  ∧ (∀ file_id q key st1,
       use_session (self st) = true →
       get_download_key file_id st = (Ok key, st1) →
       requests (world (download_file file_id q st).2)
       = (requests (world st1)
          ++ [download_call file_id q key (stored_headers st1)])%list
       ∧ req_headers (download_call file_id q key (stored_headers st1))
         = stored_headers st1).
Proof.
  split; [by vm_compute|].
  split; [intros; split; [apply search_items_logs_one_call | done]|].
  split; [intros; split; [by apply login_logs_one_call | done]|].
  split; [|split].
  - intros rav_id. split; [|done].
    cbn [search_rav_shiurim_next]. rewrite search_rav_shiurim_body_run.
    by repeat case_match.
  - intros file_id. split; [|done]. by rewrite get_shiur_details_run.
  - intros file_id q key st1 Hsession Hkey. split; [|done].
    rewrite (download_file_run file_id q st st1 key Hsession Hkey).
    destruct (answer_to _ _) as [response|]; [|done].
    destruct (status_code response =? 200)%Z; [|done].
    match goal with
    | |- context [bind (save_stream ?name ?r) _ ?s] =>
        pose proof (save_stream_frame name r s) as (_ & Hreq & _)
    end.
    unfold bind. destruct (save_stream _ _ _) as [[[]|e] st'];
      cbn [snd ret] in *; by rewrite Hreq.
Qed.

End ApiProperties.

(** * The theorems at concrete inputs *)

(** The runs below use the session store of [SessionManagerModel] and
    the worlds of [Sample]. *)

(** C2, as stated, fails: a 200 answer whose body has a [Token], the
    empty string, makes [login] raise [AuthenticationError] instead of
    storing the token and returning. *)
Lemma login_rejects_a_present_empty_token :
  status_code Sample.empty_token_reply = 200
  ∧ (∃ m, body_json Sample.empty_token_reply = Some (JObj m)
          ∧ m !! "Token" = Some (JStr ""))
  ∧ @__login SessionManagerModel.store "user" "secret"
      (Sample.state true (Some Sample.empty_token_reply))
    = (Raise (AuthenticationError "Login successful but no token found"),
       sent (login_call "user" "secret")
            (Sample.state true (Some Sample.empty_token_reply)))
  ∧ (@__login SessionManagerModel.store "user" "secret"
       (Sample.state true (Some Sample.empty_token_reply))).1 ≠ Ok true
  ∧ stored_token
      (@__login SessionManagerModel.store "user" "secret"
         (Sample.state true (Some Sample.empty_token_reply))).2 = JNull.
Proof.
  split; [reflexivity|]. split; [eexists; split; reflexivity|].
  split; [vm_compute; reflexivity|]. split; [vm_compute; discriminate|].
  vm_compute; reflexivity.
Qed.

(** A login that succeeds: the service answers 200 with a token and a
    site key. *)
Lemma login_outcomes_witness :
  "user" ≠ "" ∧ "secret" ≠ ""
  ∧ answer_to (login_call "user" "secret") (Sample.state true (Some Sample.token_reply))
    = Some Sample.token_reply
  ∧ @__login SessionManagerModel.store "user" "secret"
      (Sample.state true (Some Sample.token_reply))
    = (Ok true,
       with_session_manager
         (SessionManagerModel.set_tokens (JStr "abc") (JStr "site")
            (SessionManagerModel.SessionManager_new "session.pkl"))
         (sent (login_call "user" "secret")
               (Sample.state true (Some Sample.token_reply)))).
Proof.
  split; [discriminate|]. split; [discriminate|]. split; [reflexivity|].
  destruct (@login_outcomes SessionManagerModel.store "user" "secret"
              (Sample.state true (Some Sample.token_reply))) as [_ Hcalls].
  destruct (Hcalls ltac:(discriminate) ltac:(discriminate)) as [_ Hanswered].
  destruct (Hanswered Sample.token_reply eq_refl) as [_ H200].
  destruct (H200 eq_refl
              {[ "Token" := JStr "abc"; "SiteKey" := JStr "site" ]} eq_refl)
    as [_ Hstores].
  exact (Hstores (JStr "abc") eq_refl eq_refl).
Defined.

(** C10, as stated, fails: the stored token after a completed login
    need not be a non-empty string.  A login answered with the number 5
    as [Token] returns and stores the number; a login answered with 503
    raises and leaves the empty token that was stored before. *)
Lemma login_can_leave_a_token_that_is_no_nonempty_string :
  (@__login SessionManagerModel.store "user" "secret"
     (Sample.state true (Some Sample.number_token_reply))).1 = Ok true
  ∧ stored_token
      (@__login SessionManagerModel.store "user" "secret"
         (Sample.state true (Some Sample.number_token_reply))).2 = JInt 5
  ∧ (∀ s, stored_token
            (@__login SessionManagerModel.store "user" "secret"
               (Sample.state true (Some Sample.number_token_reply))).2 ≠ JStr s)
  ∧ (@__login SessionManagerModel.store "user" "secret"
       (Sample.stale (Some Sample.failure_reply))).1
    = Raise (AuthenticationError "Login failed with status code 503")
  ∧ stored_token
      (@__login SessionManagerModel.store "user" "secret"
         (Sample.stale (Some Sample.failure_reply))).2 = JStr "".
Proof.
  split; [vm_compute; reflexivity|]. split; [vm_compute; reflexivity|].
  split; [intros s; vm_compute; discriminate|].
  split; vm_compute; reflexivity.
Qed.

(** The same login leaves a true token in the model store; with an
    empty token in the answer it raises. *)
Lemma login_never_stores_empty_token_witness :
  (∀ token key sm,
     auth_token (session_data (SessionManagerModel.set_tokens token key sm)) = token)
  ∧ @__login SessionManagerModel.store "user" "secret"
      (Sample.state true (Some Sample.token_reply))
    = (Ok true,
       with_session_manager
         (SessionManagerModel.set_tokens (JStr "abc") (JStr "site")
            (SessionManagerModel.SessionManager_new "session.pkl"))
         (sent (login_call "user" "secret")
               (Sample.state true (Some Sample.token_reply))))
  ∧ py_truthy
      (stored_token
         (with_session_manager
            (SessionManagerModel.set_tokens (JStr "abc") (JStr "site")
               (SessionManagerModel.SessionManager_new "session.pkl"))
            (sent (login_call "user" "secret")
                  (Sample.state true (Some Sample.token_reply))))) = true
  ∧ @__login SessionManagerModel.store "user" "secret"
      (Sample.state true (Some Sample.empty_token_reply))
    = (Raise (AuthenticationError "Login successful but no token found"),
       sent (login_call "user" "secret")
            (Sample.state true (Some Sample.empty_token_reply))).
Proof.
  split; [reflexivity|]. split; [vm_compute; reflexivity|]. split.
  - destruct (@login_never_stores_empty_token SessionManagerModel.store
                "user" "secret" (Sample.state true (Some Sample.token_reply)))
      as (_ & _ & _ & Hstored).
    destruct (Hstored (λ _ _ _, eq_refl) true _ eq_refl) as [Htruthy _].
    exact Htruthy.
  - destruct (@login_never_stores_empty_token SessionManagerModel.store
                "user" "secret" (Sample.state true (Some Sample.empty_token_reply)))
      as (Hempty & _).
    exact (Hempty Sample.empty_token_reply
             {[ "Token" := JStr ""; "SiteKey" := JStr "site" ]}
             ltac:(discriminate) ltac:(discriminate)
             eq_refl eq_refl eq_refl (or_introl eq_refl)).
Defined.

(** Listing rav 12: one mapped item on 200, [SearchFailedException] on
    404. *)
Lemma search_rav_shiurim_is_lazy_witness :
  answer_to (rav_shiurim_call 12 (stored_headers (Sample.authenticated (Some Sample.listing_reply))))
            (Sample.authenticated (Some Sample.listing_reply))
  = Some Sample.listing_reply
  ∧ status_code Sample.listing_reply = 200
  ∧ (∃ items,
       search_rav_shiurim_list 2 (RavCreated 12)
         (Sample.authenticated (Some Sample.listing_reply))
       = Some (Ok items,
               sent (rav_shiurim_call 12
                       (stored_headers (Sample.authenticated (Some Sample.listing_reply))))
                    (Sample.authenticated (Some Sample.listing_reply)))
       ∧ Forall2 search_item_of
           [{[ "FileId" := JInt 42; "TitleHebrew" := JStr "שלום" ]}] items)
  ∧ search_rav_shiurim_next (RavCreated 12)
      (Sample.authenticated (Some Sample.not_found_reply))
    = ((Throw (SearchFailedException "Error fetching Rav Shiurim for Rav ID: 12" 404),
        RavFinished),
       sent (rav_shiurim_call 12
               (stored_headers (Sample.authenticated (Some Sample.not_found_reply))))
            (Sample.authenticated (Some Sample.not_found_reply))).
Proof.
  split; [reflexivity|]. split; [reflexivity|]. split.
  - destruct (search_rav_shiurim_is_lazy 12
                (Sample.authenticated (Some Sample.listing_reply)))
      as (_ & _ & _ & Hanswered).
    destruct (Hanswered Sample.listing_reply eq_refl) as [_ H200].
    exact (H200 eq_refl [{[ "FileId" := JInt 42; "TitleHebrew" := JStr "שלום" ]}]
                eq_refl 0%nat).
  - destruct (search_rav_shiurim_is_lazy 12
                (Sample.authenticated (Some Sample.not_found_reply)))
      as (_ & _ & _ & Hanswered).
    destruct (Hanswered Sample.not_found_reply eq_refl) as [Hfailed _].
    exact (Hfailed ltac:(discriminate)).
Defined.

(** A download without session-backed mode. *)
Lemma download_file_needs_session_witness :
  use_session (self (Sample.state false (Some Sample.media_reply))) = false
  ∧ @download_file SessionManagerModel.store 7 VIDEO
      (Sample.state false (Some Sample.media_reply))
    = (Raise SessionDisabledException, Sample.state false (Some Sample.media_reply)).
Proof.
  split; [reflexivity|].
  exact (@download_file_needs_session SessionManagerModel.store 7 VIDEO
           (Sample.state false (Some Sample.media_reply)) eq_refl).
Defined.

(** Downloading file 7: the video on 200, a failure on 404. *)
Lemma download_file_outcomes_witness :
  use_session (self (Sample.authenticated (Some Sample.media_reply))) = true
  ∧ (∃ st',
       @download_file SessionManagerModel.store 7 VIDEO
         (Sample.authenticated (Some Sample.media_reply))
       = (Ok "shiur_7_video.mp4", st')
       ∧ files (world st') !! "shiur_7_video.mp4"
         = Some [Byte.x49; Byte.x44; Byte.x33])
  ∧ @download_file SessionManagerModel.store 7 HD
      (Sample.authenticated (Some Sample.not_found_reply))
    = (Raise (DownloadFailedException "Download failed" 404 7 HD),
       sent (@download_call SessionManagerModel.store 7 HD "key-7"
               (stored_headers (Sample.authenticated (Some Sample.not_found_reply))))
            (printed (@download_url SessionManagerModel.store 7 HD "key-7")
                     (Sample.authenticated (Some Sample.not_found_reply)))).
Proof.
  split; [reflexivity|]. split.
  - destruct (@download_file_outcomes SessionManagerModel.store 7 VIDEO
                (Sample.authenticated (Some Sample.media_reply))
                (Sample.authenticated (Some Sample.media_reply))
                "key-7" Sample.media_reply eq_refl eq_refl eq_refl) as [H200 _].
    destruct (H200 eq_refl) as [Hcompletes _].
    destruct (Hcompletes eq_refl (λ _, eq_refl) eq_refl) as (st' & Hrun & Hfile & _).
    exists st'. split; [exact Hrun | exact Hfile].
  - destruct (@download_file_outcomes SessionManagerModel.store 7 HD
                (Sample.authenticated (Some Sample.not_found_reply))
                (Sample.authenticated (Some Sample.not_found_reply))
                "key-7" Sample.not_found_reply eq_refl eq_refl eq_refl) as [_ Hfailed].
    exact (Hfailed ltac:(discriminate)).
Defined.

(** The details of file 99 when the service answers 404, and when it
    answers 200 with a mapping that has an id and a title. *)
Lemma get_shiur_details_outcomes_witness :
  answer_to (shiur_details_call 99
               (stored_headers (Sample.state false (Some Sample.not_found_reply))))
            (Sample.state false (Some Sample.not_found_reply))
  = Some Sample.not_found_reply
  ∧ status_code Sample.not_found_reply = 404
  ∧ (get_shiur_details 99
       (Sample.state false (Some Sample.not_found_reply))).1
    = Raise (ShiurDetailsNotFoundException 99)
  ∧ ∃ details,
      shiur_details_of {[ "FileId" := JInt 99; "TitleHebrew" := JStr "שלום" ]} details
      ∧ get_shiur_details 99 (Sample.state false (Some Sample.details_reply))
        = (Ok details,
           sent (shiur_details_call 99
                   (stored_headers (Sample.state false (Some Sample.details_reply))))
                (Sample.state false (Some Sample.details_reply))).
Proof.
  split; [reflexivity|]. split; [reflexivity|].
  destruct (get_shiur_details_outcomes 99
              (Sample.state false (Some Sample.not_found_reply)))
    as (_ & _ & H404).
  split; [exact (H404 Sample.not_found_reply eq_refl eq_refl eq_refl)|].
  destruct (get_shiur_details_outcomes 99
              (Sample.state false (Some Sample.details_reply)))
    as (_ & H200 & _).
  destruct (H200 Sample.details_reply
              {[ "FileId" := JInt 99; "TitleHebrew" := JStr "שלום" ]}
              eq_refl eq_refl eq_refl) as (details & _ & Hfields & Hrun).
  exists details. split; [exact Hfields | exact Hrun].
Defined.

(** C7, as stated, fails: with a token stored, and an authorization
    header in the session store, the request of [search_items] carries
    no authorization header. *)
Lemma search_items_sends_no_authorization :
  stored_token (Sample.authenticated (Some Sample.listing_reply)) = JStr "abc"
  ∧ stored_headers (Sample.authenticated (Some Sample.listing_reply)) !! "authorization"
    = Some "Bearer abc"
  ∧ ∃ request,
      requests (world (search_items "cohen" (-1)
                         (Sample.authenticated (Some Sample.listing_reply))).2)
      = [request]
      ∧ req_headers request !! "origin" = Some "https://www2.kolhalashon.com"
      ∧ req_headers request !! "referer" = Some "https://www2.kolhalashon.com/"
      ∧ req_headers request !! "authorization" = None.
Proof.
  split; [reflexivity|]. split; [reflexivity|].
  eexists. split; [vm_compute; reflexivity|]. by vm_compute.
Qed.

(** The calls recorded by a login and by a download, with a token
    stored. *)
Lemma requests_carry_the_headers_passed_witness :
  ("user" ≠ "" ∧ "secret" ≠ "")
  ∧ requests (world (@__login SessionManagerModel.store "user" "secret"
                       (Sample.authenticated (Some Sample.token_reply))).2)
    = [login_call "user" "secret"]
  ∧ req_headers (login_call "user" "secret") = _headers
  ∧ use_session (self (Sample.authenticated (Some Sample.media_reply))) = true
  ∧ requests (world (@download_file SessionManagerModel.store 7 VIDEO
                       (Sample.authenticated (Some Sample.media_reply))).2)
    = [@download_call SessionManagerModel.store 7 VIDEO "key-7"
         (stored_headers (Sample.authenticated (Some Sample.media_reply)))].
Proof.
  split; [split; discriminate|].
  destruct (@requests_carry_the_headers_passed SessionManagerModel.store
              (Sample.authenticated (Some Sample.token_reply)))
    as (_ & _ & Hlogin & _).
  destruct (Hlogin "user" "secret" ltac:(discriminate) ltac:(discriminate))
    as [Hlogged Hfixed].
  split; [exact Hlogged|]. split; [exact Hfixed|]. split; [reflexivity|].
  destruct (@requests_carry_the_headers_passed SessionManagerModel.store
              (Sample.authenticated (Some Sample.media_reply)))
    as (_ & _ & _ & _ & _ & Hdownload).
  destruct (Hdownload 7 VIDEO "key-7"
              (Sample.authenticated (Some Sample.media_reply)) eq_refl eq_refl)
    as [Hlogged' _].
  exact Hlogged'.
Defined.

(** Construction in session-backed mode with nothing persisted: the
    model store fails to load, so [login] runs, stores the token it is
    given and construction succeeds after one call. *)
Example construction_falls_back_to_login :
  login_due (H := SessionManagerModel.store) (Sample.planet (Some Sample.token_reply))
            (SessionManagerModel.SessionManager_new "session.pkl") = true
  ∧ ∃ st,
      @__init__ SessionManagerModel.store (Some "user") (Some "secret") true
        "session.pkl" (Sample.planet (Some Sample.token_reply)) = (Ok tt, st)
      ∧ stored_token st = JStr "abc"
      ∧ requests (world st) = [login_call "user" "secret"]
      ∧ stdout (world st) = ["Session not found or invalid, attempting to login."].
Proof.
  split; [reflexivity|]. eexists. split; [vm_compute; reflexivity|]. by vm_compute.
Qed.

(** * Further properties of the code *)

(** ** The mappers on payloads of any shape *)

(** X3.  On every mapping [_parse_shiur_details] returns details whose
    fields are the raw values or their defaults, and whose categories
    are always the two-element list of [CatDesc1] and [CatDesc2], each
    [""] when absent. *)
Theorem parse_shiur_details_populates_every_field (m : gmap string json) :
  ∃ details,
    _parse_shiur_details (JObj m) = Ok details
    ∧ populated m "FileId" (JInt 0) (d_file_id details)
    ∧ populated m "TitleHebrew" (JStr "") (d_title details)
    ∧ populated m "UserNameHebrew" (JStr "") (d_rav details)
    ∧ populated m "ShiurDuration" (JStr "Unavailable") (d_duration details)
    ∧ populated m "RecordDate" (JStr "") (d_record_date details)
    ∧ populated m "MainTopicHebrew" (JStr "") (d_main_topic details)
    ∧ populated m "HasAudio" (JBool false) (d_audio_available details)
    ∧ populated m "HasVideo" (JBool false) (d_video_available details)
    ∧ populated m "HasHdVideo" (JBool false) (d_hd_video_available details)
    ∧ ∃ first second,
        d_categories details = [first; second]
        ∧ populated m "CatDesc1" (JStr "") first
        ∧ populated m "CatDesc2" (JStr "") second.
Proof.
  unfold _parse_shiur_details. rewrite !py_get_mapping. cbn [rbind].
  eexists. split; [reflexivity|].
  cbn [d_file_id d_title d_rav d_duration d_record_date d_main_topic
       d_audio_available d_video_available d_hd_video_available d_categories].
  do 9 (split; [apply populated_default|]).
  do 2 eexists. split; [reflexivity|]. split; apply populated_default.
Qed.

(** X6.  A key that is not one of those a mapper reads has no
    influence: adding it to the payload, with any value, gives the same
    item and the same details. *)
Theorem mappers_ignore_other_keys (m : gmap string json) (key : string) (v : json) :
  (key ∉ search_item_keys →
   format_shiur (JObj (<[key := v]> m)) = format_shiur (JObj m))
  ∧ (key ∉ shiur_details_keys →
     _parse_shiur_details (JObj (<[key := v]> m)) = _parse_shiur_details (JObj m)).
Proof.
  split; intros Hkey.
  - unfold format_shiur. rewrite !py_get_mapping.
    rewrite !lookup_insert_ne; [done|..];
      intros ->; apply Hkey; unfold search_item_keys; set_solver.
  - unfold _parse_shiur_details. rewrite !py_get_mapping.
    rewrite !lookup_insert_ne; [done|..];
      intros ->; apply Hkey; unfold shiur_details_keys; set_solver.
Qed.

Lemma format_shiurim_take_finished (n : nat) :
  format_shiurim_take n FsFinished = (replicate n StopIteration, FsFinished).
Proof. induction n as [|n IH]; [done|]. cbn. by rewrite IH. Qed.

Lemma format_shiurim_take_suspended (good : list (gmap string json)) (bad : json)
    (rest : list json) (extra : nat) :
  is_mapping bad = false →
  ∃ items,
    Forall2 search_item_of good items
    ∧ format_shiurim_take (length good + 1 + extra)
        (FsSuspended ((JObj <$> good) ++ bad :: rest))
      = ((Yield <$> items) ++ Throw (AttributeError "get")
                              :: replicate extra StopIteration,
         FsFinished)%list
    ∧ format_shiurim_list (S (length good + 1 + extra))
        (FsSuspended ((JObj <$> good) ++ bad :: rest))
      = Some (Raise (AttributeError "get")).
Proof.
  intros Hbad.
  assert (Hraise : format_shiur bad = Raise (AttributeError "get")).
  { unfold format_shiur. by rewrite py_get_not_mapping. }
  induction good as [|m good IH].
  - exists []. split; [constructor|].
    cbn [length Nat.add fmap list_fmap app format_shiurim_take format_shiurim_list
         format_shiurim_next format_shiurim_loop].
    rewrite Hraise, format_shiurim_take_finished. done.
  - destruct IH as (items & Hall & Htake & Hlist).
    destruct (format_shiur_mapping m) as (item & Hitem & Hfields).
    exists (item :: items). split; [by constructor|].
    change (length (m :: good) + 1 + extra)%nat with (S (length good + 1 + extra)).
    cbn [fmap list_fmap app format_shiurim_take format_shiurim_list
         format_shiurim_next format_shiurim_loop].
    rewrite Hitem.
    change (list_fmap _ _ JObj good) with (JObj <$> good).
    change (list_fmap _ _ Yield items) with (Yield <$> items).
    rewrite Htake. split; [done|].
    cbn [format_shiurim_list] in Hlist. by rewrite Hlist.
Qed.

(** X4.  When the payload is a list whose entries are mappings up to
    one that is not, the generator yields the items of the entries
    before it, then raises [AttributeError], and is finished: the
    entries after it are never mapped, every later [next] gives
    [StopIteration], and [list] raises. *)
Theorem format_shiurim_stops_at_first_bad_entry (good : list (gmap string json))
    (bad : json) (rest : list json) (extra : nat) :
  is_mapping bad = false →
  ∃ items,
    Forall2 search_item_of good items
    ∧ format_shiurim_take (length good + 1 + extra)
        (format_shiurim (JArr ((JObj <$> good) ++ bad :: rest)))
      = ((Yield <$> items) ++ Throw (AttributeError "get")
                              :: replicate extra StopIteration,
         FsFinished)%list
    ∧ format_shiurim_list (S (length good + 1 + extra))
        (format_shiurim (JArr ((JObj <$> good) ++ bad :: rest)))
      = Some (Raise (AttributeError "get")).
Proof.
  intros Hbad.
  destruct (format_shiurim_take_suspended good bad rest extra Hbad)
    as (items & Hall & Htake & Hlist).
  exists items. split; [done|].
  replace (length good + 1 + extra)%nat with (S (length good + extra)) in * by lia.
  split.
  - rewrite <- Htake. done.
  - rewrite <- Hlist. done.
Qed.

(** X5.  A payload that is not a list never yields an item: [None], a
    boolean or a number raises [TypeError] at the first [next]; a
    mapping or a string is iterated over its keys or characters, so it
    raises [AttributeError] unless it is empty, in which case the
    sequence is empty. *)
Theorem format_shiurim_on_non_lists (shiurim : json) (fuel : nat) :
  format_shiurim_list (S fuel) (format_shiurim shiurim)
  = match shiurim with
    | JArr entries => format_shiurim_list (S fuel) (FsSuspended entries)
    | JObj m =>
        if Nat.eqb (size m) 0 then Some (Ok [])
        else Some (Raise (AttributeError "get"))
    | JStr s =>
        if String.eqb s "" then Some (Ok [])
        else Some (Raise (AttributeError "get"))
    | _ => Some (Raise (TypeError "object is not iterable"))
    end.
Proof.
  destruct shiurim as [| | | |s|entries|m]; try done.
  - by destruct s.
  - cbn [format_shiurim_list format_shiurim_next format_shiurim py_iter].
    destruct (Nat.eqb (size m) 0) eqn:Hsize.
    + apply Nat.eqb_eq, map_size_empty_iff in Hsize. subst m.
      by rewrite map_to_list_empty.
    + apply Nat.eqb_neq, map_size_non_empty_iff in Hsize.
      destruct (map_to_list m) as [|[key v] entries] eqn:Hlist; [|done].
      by apply map_to_list_empty_iff in Hlist.
Qed.

(** ** File names of downloads *)

Lemma pretty_N_go_plain (x : N) (s : string) :
  has_underscore s = false → has_underscore (pretty_N_go x s) = false.
Proof.
  revert s. induction (N.lt_wf_0 x) as [x _ IH]. intros s Hs.
  destruct (decide (x = 0%N)) as [-> | Hx].
  - by rewrite pretty_N_go_0.
  - rewrite pretty_N_go_step by lia. apply IH.
    + apply N.div_lt; lia.
    + cbn [has_underscore]. rewrite Hs.
      unfold pretty_N_char. by repeat case_match.
Qed.

Lemma pretty_Z_plain (n : Z) : has_underscore (pretty n) = false.
Proof.
  assert (Hpos : ∀ p : positive, has_underscore (pretty p) = false).
  { intros p. unfold pretty, pretty_positive, pretty, pretty_N.
    case_decide; [done|]. by apply pretty_N_go_plain. }
  destruct n as [|p|p]; [done | apply Hpos |].
  unfold pretty, pretty_Z. cbn [String.append has_underscore]. apply Hpos.
Qed.

Lemma split_at_underscore (a b r1 r2 : string) :
  has_underscore a = false → has_underscore b = false →
  a +:+ "_" +:+ r1 = b +:+ "_" +:+ r2 → a = b ∧ r1 = r2.
Proof.
  revert b. induction a as [|c a IH]; intros [|d b] Ha Hb Heq.
  - cbn in Heq. by injection Heq.
  - cbn in Heq, Hb. injection Heq as <- _.
    by rewrite orb_true_l in Hb.
  - cbn in Heq, Ha. injection Heq as -> _.
    by rewrite orb_true_l in Ha.
  - cbn in Heq, Ha, Hb. injection Heq as -> Heq.
    apply orb_false_iff in Ha as [_ Ha], Hb as [_ Hb].
    destruct (IH b Ha Hb Heq) as [-> ->]. done.
Qed.

Lemma download_name_inj (f1 f2 : Z) (q1 q2 : QualityLevel) :
  download_name f1 q1 = download_name f2 q2 → f1 = f2 ∧ q1 = q2.
Proof.
  unfold download_name. intros Heq.
  assert (Hcut : ∀ r1 r2,
    "shiur_" +:+ pretty f1 +:+ "_" +:+ r1 = "shiur_" +:+ pretty f2 +:+ "_" +:+ r2 →
    f1 = f2 ∧ r1 = r2).
  { intros r1 r2 Hname. apply (inj (String.append "shiur_")) in Hname.
    apply split_at_underscore in Hname as [Hid Hrest]; try apply pretty_Z_plain.
    split; [by apply (inj pretty) | done]. }
  destruct q1, q2;
    match type of Heq with
    | _ +:+ _ +:+ String _ ?r1 = _ +:+ _ +:+ String _ ?r2 =>
        destruct (Hcut r1 r2 Heq) as [-> Hrest]
    end; done.
Qed.

(** ** Further properties of the methods *)

Section MoreApiProperties.
Context `{Collaborators}.

Lemma search_items_run (keyword : string) (user_id : Z) (st : St) :
  search_items keyword user_id st
  = match answer_to (search_items_call keyword user_id) st with
    | None => (Raise RequestException, sent (search_items_call keyword user_id) st)
    | Some response =>
        if (status_code response =? 200)%Z then
          (match body_json response with
           | Some results => Ok results
           | None => Raise JSONDecodeError
           end, sent (search_items_call keyword user_id) st)
        else
          (Raise (SearchFailedException
                    ("Error fetching data for keyword: " +:+ keyword)
                    (status_code response)),
           printed ("Request failed with status code "
                    +:+ pretty (status_code response)
                    +:+ " and response: " +:+ text response)
                   (sent (search_items_call keyword user_id) st))
    end.
Proof.
  unfold search_items, bind, session_get.
  change (session_request _ st)
    with (session_request (search_items_call keyword user_id) st).
  rewrite session_request_run.
  destruct (answer_to _ st) as [response|]; [|done].
  destruct (status_code response =? 200)%Z; [|done].
  unfold response_json. by destruct (body_json response).
Qed.

(** X1.  [search_items] hands back the decoded body of a 200 answer
    as it is, whatever its shape, and changes nothing but the log of
    calls.  On any other status it prints one line with the status and
    the response text and raises [SearchFailedException] with the
    keyword in its message and the status code; it raises that
    exception in no other case. *)
Theorem search_items_outcomes (keyword : string) (user_id : Z) (st : St) :
  let call := search_items_call keyword user_id in
  (∀ response, answer_to call st = Some response →
     (status_code response = 200 →
      ∀ results, body_json response = Some results →
      search_items keyword user_id st = (Ok results, sent call st))
     ∧ (status_code response ≠ 200 →
        search_items keyword user_id st
        = (Raise (SearchFailedException
                    ("Error fetching data for keyword: " +:+ keyword)
                    (status_code response)),
           printed ("Request failed with status code "
                    +:+ pretty (status_code response)
                    +:+ " and response: " +:+ text response)
                   (sent call st))))
  ∧ (∀ msg code,
       (search_items keyword user_id st).1 = Raise (SearchFailedException msg code)
       ↔ ∃ response,
           answer_to call st = Some response
           ∧ status_code response ≠ 200
           ∧ code = status_code response
           ∧ msg = "Error fetching data for keyword: " +:+ keyword).
Proof.
  intros call. rewrite search_items_run. fold call. split.
  - intros response ->. split.
    + intros -> results ->. done.
    + intros Hstatus. apply Z.eqb_neq in Hstatus. by rewrite Hstatus.
  - intros msg code. split.
    + destruct (answer_to call st) as [response|]; [|done].
      destruct (status_code response =? 200)%Z eqn:Hstatus.
      * by destruct (body_json response).
      * intros [= <- <-]. exists response. apply Z.eqb_neq in Hstatus. done.
    + intros (response & -> & Hstatus & -> & ->).
      apply Z.eqb_neq in Hstatus. by rewrite Hstatus.
Qed.

(** X10.  [list] of a [search_rav_shiurim] generator whose POST is
    answered with 200 is [list] of [format_shiurim] on the decoded
    body, after that one call; a body that does not decode raises
    [JSONDecodeError]. *)
Theorem search_rav_shiurim_list_composes (rav_id : Z) (st : St) (response : Response)
    (fuel : nat) :
  let call := rav_shiurim_call rav_id (stored_headers st) in
  answer_to call st = Some response →
  status_code response = 200 →
  search_rav_shiurim_list (S fuel) (RavCreated rav_id) st
  = match body_json response with
    | Some shiurim =>
        (λ r, (r, sent call st)) <$> format_shiurim_list (S fuel) (format_shiurim shiurim)
    | None => Some (Raise JSONDecodeError, sent call st)
    end.
Proof.
  intros call Hanswer Hstatus.
  rewrite search_rav_shiurim_list_created, search_rav_shiurim_body_run.
  fold call. rewrite Hanswer, Hstatus. cbn [Z.eqb Pos.eqb].
  by destruct (body_json response).
Qed.

Lemma search_rav_shiurim_drive_started (n : nat) :
  ∀ (g : search_rav_shiurim_gen) (st : St),
    (∀ rav_id, g ≠ RavCreated rav_id) →
    (search_rav_shiurim_drive n g st).2 = st.
Proof.
  induction n as [|n IH]; intros g st Hstarted; [done|].
  cbn [search_rav_shiurim_drive].
  destruct g as [rav_id|inner|]; [by destruct (Hstarted rav_id)|..];
    cbn [search_rav_shiurim_next].
  - unfold delegate.
    destruct (format_shiurim_next inner) as [[item| |e] inner'];
      by apply IH.
  - by apply IH.
Qed.

(** X9.  However often [next] is called on a [search_rav_shiurim]
    generator, and whatever the service answers, the generator makes
    one call in all, at the first [next], and changes nothing else. *)
Theorem search_rav_shiurim_calls_once (n : nat) (rav_id : Z) (st : St) :
  (search_rav_shiurim_drive (S n) (RavCreated rav_id) st).2
  = sent (rav_shiurim_call rav_id (stored_headers st)) st.
Proof.
  cbn [search_rav_shiurim_drive search_rav_shiurim_next].
  rewrite search_rav_shiurim_body_run.
  set (st' := sent _ st).
  assert (Hrest : ∀ g, (∀ id, g ≠ RavCreated id) →
                       (search_rav_shiurim_drive n g st').2 = st')
    by (intros; by apply search_rav_shiurim_drive_started).
  match goal with
  | |- context [match ?outcome with Ok _ => _ | Raise _ => _ end] =>
      destruct outcome as [inner|e]
  end.
  - unfold delegate.
    destruct (format_shiurim_next inner) as [[item| |e] inner']; by apply Hrest.
  - by apply Hrest.
Qed.

(** X14.  [get_shiur_details] changes nothing but the log of calls,
    in every outcome.  When the transport fails it raises
    [RequestException]; when a 200 answer does not decode,
    [JSONDecodeError]; when it decodes to something that is not a
    mapping, [AttributeError]. *)
Theorem get_shiur_details_malformed_answers (file_id : Z) (st : St) :
  let call := shiur_details_call file_id (stored_headers st) in
  (get_shiur_details file_id st).2 = sent call st
  ∧ (answer_to call st = None →
     (get_shiur_details file_id st).1 = Raise RequestException)
  ∧ (∀ response, answer_to call st = Some response →
     status_code response = 200 →
     (body_json response = None →
      (get_shiur_details file_id st).1 = Raise JSONDecodeError)
     ∧ (∀ data, body_json response = Some data → is_mapping data = false →
        (get_shiur_details file_id st).1 = Raise (AttributeError "get"))).
Proof.
  intros call. rewrite get_shiur_details_run. fold call. cbn [fst snd].
  split; [done|]. split; [by intros ->|].
  intros response -> ->. cbn [Z.eqb Pos.eqb]. split; [by intros ->|].
  intros data -> Hdata. unfold _parse_shiur_details.
  by rewrite py_get_not_mapping.
Qed.

(** *** Downloads and the file system *)


Lemma download_file_returns_name (file_id : Z) (q : QualityLevel) (st st' : St)
    (name : string) :
  download_file file_id q st = (Ok name, st') → name = download_name file_id q.
Proof.
  destruct (use_session (self st)) eqn:Hsession.
  - destruct (get_download_key file_id st) as [[key|e] st1] eqn:Hkey.
    + rewrite (download_file_run file_id q st st1 key Hsession Hkey).
      destruct (answer_to _ _) as [response|]; [|done].
      destruct (status_code response =? 200)%Z; [|done].
      unfold bind. destruct (save_stream _ _ _) as [[[]|e] st2]; [|done].
      by intros [= <- _].
    + unfold download_file, bind, gets. rewrite Hsession. cbn [negb].
      by rewrite Hkey.
  - unfold download_file, bind, gets. by rewrite Hsession.
Qed.

(** X7.  Two downloads that return the same file name are downloads of
    the same file at the same quality level: downloads of different
    files, or of one file at different qualities, never write to the
    same file. *)
Theorem download_file_names_are_distinct (f1 f2 : Z) (q1 q2 : QualityLevel)
    (sa sa' sb sb' : St) (name : string) :
  download_file f1 q1 sa = (Ok name, sa') →
  download_file f2 q2 sb = (Ok name, sb') →
  f1 = f2 ∧ q1 = q2.
Proof.
  intros Ha Hb.
  apply download_file_returns_name in Ha, Hb.
  apply download_name_inj. by rewrite <- Ha, <- Hb.
Qed.

(** *** Construction *)

(** X2.  Construction without session-backed mode never raises and
    leaves the world as it is.  A credential given as a non-empty
    string is kept; one that is not given, or given as the empty
    string, is read from its environment variable, and is [""] when the
    variable is not set. *)
Theorem construction_without_session (user pass : option string) (file : string)
    (w : World) :
  ∃ st,
    __init__ user pass false file w = (Ok tt, st)
    ∧ world st = w
    ∧ use_session (self st) = false
    ∧ session_manager (self st) = SessionManager_new file
    ∧ (∀ u, user = Some u → u ≠ "" → username (self st) = u)
    ∧ (user = None ∨ user = Some "" →
       username (self st) = default "" (environ w !! "KOL_HALASHON_USERNAME"))
    ∧ (∀ p, pass = Some p → p ≠ "" → password (self st) = p)
    ∧ (pass = None ∨ pass = Some "" →
       password (self st) = default "" (environ w !! "KOL_HALASHON_PASSWORD")).
Proof.
  eexists. split; [reflexivity|]. cbn.
  repeat split.
  - intros u -> Hu. by rewrite eqb_empty_false.
  - by intros [-> | ->].
  - intros p -> Hp. by rewrite eqb_empty_false.
  - by intros [-> | ->].
Qed.

(** The object on which the login fallback runs: the constructed one,
    with the loaded session store when loading succeeded. *)
Lemma init_session_due (st : St) :
  login_due (world st) (session_manager (self st)) = true →
  ∃ st1,
    _init_session st = login_fallback st1
    ∧ world st1 = world st
    ∧ username (self st1) = username (self st)
    ∧ password (self st1) = password (self st)
    ∧ session_manager (self st1)
      = match load_session (world st) (session_manager (self st)) with
        | Ok loaded => loaded
        | Raise _ => session_manager (self st)
        end.
Proof.
  unfold login_due. rewrite init_session_run.
  destruct (load_session (world st) (session_manager (self st))) as [loaded|e].
  - destruct (is_token_valid loaded); [done|]. intros _.
    by exists (with_session_manager loaded st).
  - destruct e; try done. intros _. by exists st.
Qed.

(** X11.  Session-backed construction that has to log in, with a
    username or password that is empty after the environment has been
    consulted, raises [AuthenticationError] without making any call;
    the announcement of the login attempt has been printed. *)
Theorem construction_without_credentials (user pass : option string) (file : string)
    (w : World) :
  let st0 := constructed user pass true file w in
  login_due w (session_manager (self st0)) = true →
  username (self st0) = "" ∨ password (self st0) = "" →
  ∃ st,
    __init__ user pass true file w
    = (Raise (AuthenticationError "Username and password are required"), st)
    ∧ requests (world st) = requests w
    ∧ stdout (world st)
      = (stdout w ++ ["Session not found or invalid, attempting to login."])%list.
Proof.
  intros st0 Hdue Hempty.
  destruct (init_session_due st0 Hdue) as (st1 & Hrun & Hworld & Huser & Hpass & _).
  change (__init__ user pass true file w) with (_init_session st0).
  rewrite Hrun, login_fallback_run, Huser, Hpass.
  rewrite login_without_credentials by done.
  eexists. split; [reflexivity|]. cbn. by rewrite Hworld.
Qed.

(** X12.  Session-backed construction that has to log in, with both
    credentials, makes the login call and nothing else.  A status other
    than 200 makes construction raise [AuthenticationError]; a 200 with
    a token Python treats as true makes it return an object whose
    session store is the loaded one, or the fresh one when loading
    failed, after [set_tokens]. *)
Theorem construction_with_login (user pass : option string) (file : string)
    (w : World) (response : Response) :
  let st0 := constructed user pass true file w in
  let call := login_call (username (self st0)) (password (self st0)) in
  let base := match load_session w (session_manager (self st0)) with
              | Ok loaded => loaded
              | Raise _ => session_manager (self st0)
              end in
  login_due w (session_manager (self st0)) = true →
  username (self st0) ≠ "" → password (self st0) ≠ "" →
  remote w (requests w) call = Some response →
  requests (world (__init__ user pass true file w).2) = (requests w ++ [call])%list
  ∧ (status_code response ≠ 200 →
     (__init__ user pass true file w).1
     = Raise (AuthenticationError
                ("Login failed with status code " +:+ pretty (status_code response))))
  ∧ (status_code response = 200 →
     ∀ m token, body_json response = Some (JObj m) →
     m !! "Token" = Some token → py_truthy token = true →
     (__init__ user pass true file w).1 = Ok tt
     ∧ session_manager (self (__init__ user pass true file w).2)
       = set_tokens token (default (JStr "") (m !! "SiteKey")) base).
Proof.
  intros st0 call base Hdue Hu Hp Hanswer.
  destruct (init_session_due st0 Hdue) as (st1 & Hrun & Hworld & Huser & Hpass & Hsm).
  change (__init__ user pass true file w) with (_init_session st0).
  rewrite Hrun, login_fallback_run, Huser, Hpass.
  set (st2 := printed _ st1).
  assert (Hanswer2 : answer_to call st2 = Some response).
  { unfold answer_to. subst st2. cbn. by rewrite Hworld. }
  assert (Hreq2 : requests (world st2) = requests w).
  { subst st2. cbn. by rewrite Hworld. }
  split.
  { pose proof (login_logs_one_call _ _ st2 Hu Hp) as Hlogged. fold call in Hlogged.
    destruct (__login _ _ st2) as [[r|e] st3]; cbn [snd] in *;
      by rewrite Hlogged, Hreq2. }
  rewrite login_run by done. fold call. rewrite Hanswer2.
  split.
  - intros Hstatus. apply Z.eqb_neq in Hstatus. by rewrite Hstatus.
  - intros -> m token -> Htoken Htrue. cbn [Z.eqb Pos.eqb].
    rewrite !py_get_mapping, Htoken. cbn [default from_option id].
    rewrite Htrue. split; [done|]. cbn. by rewrite Hsm.
Qed.

(** *** The example script *)

(** X13.  The example script makes exactly one call, the keyword
    search for its fixed keyword with user id -1 and the two fixed
    headers, and never logs in.  On 200 it prints the decoded results
    and ends; on any other status it ends with
    [SearchFailedException]. *)
Theorem exemples_makes_one_search (py_str : json → string) (w : World) :
  let call := search_items_call "כהן" (-1) in
  requests (world (exemples py_str w).2) = (requests w ++ [call])%list
  ∧ req_headers call = _headers
  ∧ self (exemples py_str w).2 = self (constructed None None false "session.pkl" w)
  ∧ ∀ response, remote w (requests w) call = Some response →
    (status_code response = 200 →
     ∀ results, body_json response = Some results →
     (exemples py_str w).1 = Ok tt
     ∧ stdout (world (exemples py_str w).2) = (stdout w ++ [py_str results])%list)
    ∧ (status_code response ≠ 200 →
       (exemples py_str w).1
       = Raise (SearchFailedException "Error fetching data for keyword: כהן"
                                      (status_code response))).
Proof.
  intros call. unfold exemples, __init__, main. cbn [negb].
  set (st0 := constructed None None false "session.pkl" w).
  unfold bind. rewrite search_items_run. fold call.
  change (answer_to call st0) with (remote w (requests w) call).
  split; [|split; [done|split]].
  - repeat case_match; simplify_eq; done.
  - repeat case_match; simplify_eq; done.
  - intros response ->. split.
    + intros -> results ->. done.
    + intros Hstatus. apply Z.eqb_neq in Hstatus. by rewrite Hstatus.
Qed.

End MoreApiProperties.

(** * The further properties at concrete inputs *)

(** The correctly spelled [ViewedByUser] is not a key the mapper reads,
    and [DownloadCount] is not one the details mapper reads. *)
Lemma mappers_ignore_other_keys_witness :
  format_shiur (JObj (<["ViewedByUser" := JBool true]> {[ "FileId" := JInt 42 ]}))
  = format_shiur (JObj {[ "FileId" := JInt 42 ]})
  ∧ _parse_shiur_details
      (JObj (<["DownloadCount" := JInt 9]> {[ "FileId" := JInt 42 ]}))
    = _parse_shiur_details (JObj {[ "FileId" := JInt 42 ]}).
Proof.
  destruct (mappers_ignore_other_keys {[ "FileId" := JInt 42 ]}
              "ViewedByUser" (JBool true)) as [Hitem _].
  destruct (mappers_ignore_other_keys {[ "FileId" := JInt 42 ]}
              "DownloadCount" (JInt 9)) as [_ Hdetails].
  split.
  - apply Hitem. unfold search_item_keys.
    rewrite !not_elem_of_cons. repeat split; try discriminate.
    apply not_elem_of_nil.
  - apply Hdetails. unfold shiur_details_keys.
    rewrite !not_elem_of_cons. repeat split; try discriminate.
    apply not_elem_of_nil.
Defined.

(** One good entry, then a number, then another good entry. *)
Lemma format_shiurim_stops_at_first_bad_entry_witness :
  is_mapping (JInt 5) = false
  ∧ ∃ items,
      Forall2 search_item_of [{[ "FileId" := JInt 42 ]}] items
      ∧ format_shiurim_take 3
          (format_shiurim (JArr [JObj {[ "FileId" := JInt 42 ]}; JInt 5;
                                 JObj {[ "FileId" := JInt 43 ]}]))
        = ((Yield <$> items) ++ [Throw (AttributeError "get"); StopIteration],
           FsFinished)%list
      ∧ format_shiurim_list 4
          (format_shiurim (JArr [JObj {[ "FileId" := JInt 42 ]}; JInt 5;
                                 JObj {[ "FileId" := JInt 43 ]}]))
        = Some (Raise (AttributeError "get")).
Proof.
  split; [reflexivity|].
  exact (format_shiurim_stops_at_first_bad_entry
           [{[ "FileId" := JInt 42 ]}] (JInt 5) [JObj {[ "FileId" := JInt 43 ]}]
           1 eq_refl).
Defined.

(** A search answered with 200 and a search answered with 503. *)
Lemma search_items_outcomes_witness :
  search_items "cohen" (-1) (Sample.state false (Some Sample.listing_reply))
  = (Ok (JArr [JObj {[ "FileId" := JInt 42; "TitleHebrew" := JStr "שלום" ]}]),
     sent (search_items_call "cohen" (-1))
          (Sample.state false (Some Sample.listing_reply)))
  ∧ (search_items "cohen" (-1) (Sample.state false (Some Sample.failure_reply))).1
    = Raise (SearchFailedException "Error fetching data for keyword: cohen" 503).
Proof.
  split.
  - destruct (search_items_outcomes "cohen" (-1)
                (Sample.state false (Some Sample.listing_reply))) as [Hanswered _].
    destruct (Hanswered Sample.listing_reply eq_refl) as [H200 _].
    exact (H200 eq_refl _ eq_refl).
  - destruct (search_items_outcomes "cohen" (-1)
                (Sample.state false (Some Sample.failure_reply))) as [_ Hiff].
    apply Hiff. exists Sample.failure_reply.
    split; [reflexivity|]. split; [discriminate|]. split; reflexivity.
Defined.

(** Listing rav 12 when the body does not decode. *)
Lemma search_rav_shiurim_list_composes_witness :
  answer_to (rav_shiurim_call 12
               (stored_headers (Sample.state false (Some Sample.media_reply))))
            (Sample.state false (Some Sample.media_reply))
  = Some Sample.media_reply
  ∧ search_rav_shiurim_list 1 (RavCreated 12)
      (Sample.state false (Some Sample.media_reply))
    = Some (Raise JSONDecodeError,
            sent (rav_shiurim_call 12
                    (stored_headers (Sample.state false (Some Sample.media_reply))))
                 (Sample.state false (Some Sample.media_reply))).
Proof.
  split; [reflexivity|].
  exact (search_rav_shiurim_list_composes 12
           (Sample.state false (Some Sample.media_reply))
           Sample.media_reply 0 eq_refl eq_refl).
Defined.

(** Details answered with 200 and a list instead of a mapping. *)
Lemma get_shiur_details_malformed_answers_witness :
  is_mapping (JArr [JObj {[ "FileId" := JInt 42; "TitleHebrew" := JStr "שלום" ]}])
  = false
  ∧ (get_shiur_details 42 (Sample.state false (Some Sample.listing_reply))).1
    = Raise (AttributeError "get").
Proof.
  split; [reflexivity|].
  destruct (get_shiur_details_malformed_answers 42
              (Sample.state false (Some Sample.listing_reply))) as (_ & _ & Hanswered).
  destruct (Hanswered Sample.listing_reply eq_refl eq_refl) as [_ Hshape].
  exact (Hshape _ eq_refl eq_refl).
Defined.


(** Two runs of the same download agree on file and quality. *)
Lemma download_file_names_are_distinct_witness :
  (∃ st', @download_file SessionManagerModel.store 7 VIDEO
            (Sample.authenticated (Some Sample.media_reply))
          = (Ok "shiur_7_video.mp4", st'))
  ∧ (7 = 7 ∧ VIDEO = VIDEO).
Proof.
  split; [eexists; vm_compute; reflexivity|].
  exact (@download_file_names_are_distinct SessionManagerModel.store
           7 7 VIDEO VIDEO
           (Sample.authenticated (Some Sample.media_reply)) _
           (Sample.authenticated (Some Sample.media_reply)) _
           "shiur_7_video.mp4" eq_refl eq_refl).
Defined.

(** An empty username argument is replaced by the environment's. *)
Lemma construction_without_session_witness :
  ∃ st,
    @__init__ SessionManagerModel.store (Some "") (Some "given") false "session.pkl"
      (Sample.planet_with_credentials None) = (Ok tt, st)
    ∧ username (self st) = "envuser"
    ∧ password (self st) = "given".
Proof.
  destruct (@construction_without_session SessionManagerModel.store
              (Some "") (Some "given") "session.pkl"
              (Sample.planet_with_credentials None))
    as (st & Hrun & _ & _ & _ & _ & Huser & Hpass & _).
  exists st. split; [exact Hrun|]. split.
  - exact (Huser (or_intror eq_refl)).
  - apply (Hpass "given" eq_refl). discriminate.
Defined.

(** Session-backed construction with nothing persisted and no
    credentials anywhere. *)
Lemma construction_without_credentials_witness :
  login_due (H := SessionManagerModel.store) (Sample.planet (Some Sample.token_reply))
    (SessionManagerModel.SessionManager_new "session.pkl") = true
  ∧ ∃ st,
      @__init__ SessionManagerModel.store None None true "session.pkl"
        (Sample.planet (Some Sample.token_reply))
      = (Raise (AuthenticationError "Username and password are required"), st)
      ∧ requests (world st) = [].
Proof.
  split; [reflexivity|].
  destruct (@construction_without_credentials SessionManagerModel.store
              None None "session.pkl" (Sample.planet (Some Sample.token_reply))
              eq_refl (or_introl eq_refl))
    as (st & Hrun & Hreq & _).
  exists st. split; [exact Hrun | exact Hreq].
Defined.

(** Session-backed construction with credentials from the environment
    and a login that succeeds. *)
Lemma construction_with_login_witness :
  (@__init__ SessionManagerModel.store None None true "session.pkl"
     (Sample.planet_with_credentials (Some Sample.token_reply))).1 = Ok tt
  ∧ session_manager
      (self (@__init__ SessionManagerModel.store None None true "session.pkl"
               (Sample.planet_with_credentials (Some Sample.token_reply))).2)
    = SessionManagerModel.set_tokens (JStr "abc") (JStr "site")
        (SessionManagerModel.SessionManager_new "session.pkl")
  ∧ requests
      (world (@__init__ SessionManagerModel.store None None true "session.pkl"
                (Sample.planet_with_credentials (Some Sample.token_reply))).2)
    = [login_call "envuser" "envsecret"].
Proof.
  destruct (@construction_with_login SessionManagerModel.store
              None None "session.pkl"
              (Sample.planet_with_credentials (Some Sample.token_reply))
              Sample.token_reply eq_refl ltac:(discriminate) ltac:(discriminate)
              eq_refl) as (Hreq & _ & H200).
  destruct (H200 eq_refl {[ "Token" := JStr "abc"; "SiteKey" := JStr "site" ]}
              (JStr "abc") eq_refl eq_refl eq_refl) as [Hok Hstore].
  split; [exact Hok|]. split; [exact Hstore | exact Hreq].
Defined.

(** The example script against a service that is busy. *)
Lemma exemples_makes_one_search_witness :
  (@exemples SessionManagerModel.store Sample.show
     (Sample.planet (Some Sample.failure_reply))).1
  = Raise (SearchFailedException "Error fetching data for keyword: כהן" 503)
  ∧ (@exemples SessionManagerModel.store Sample.show
       (Sample.planet (Some (Sample.answer 200 (Some (JArr [])))))).1 = Ok tt
  ∧ stdout (world (@exemples SessionManagerModel.store Sample.show
                     (Sample.planet (Some (Sample.answer 200 (Some (JArr [])))))).2)
    = ["[]"].
Proof.
  destruct (@exemples_makes_one_search SessionManagerModel.store Sample.show
              (Sample.planet (Some Sample.failure_reply))) as (_ & _ & _ & Hbusy).
  destruct (Hbusy Sample.failure_reply eq_refl) as [_ Hfailed].
  split; [exact (Hfailed ltac:(discriminate))|].
  destruct (@exemples_makes_one_search SessionManagerModel.store Sample.show
              (Sample.planet (Some (Sample.answer 200 (Some (JArr []))))))
    as (_ & _ & _ & Hanswered).
  destruct (Hanswered (Sample.answer 200 (Some (JArr []))) eq_refl) as [H200 _].
  exact (H200 eq_refl (JArr []) eq_refl).
Defined.
